(** * A local append-only content index: daily record store, month
    manifests, global paginated index and fingerprint markers.

    The development embeds the persistence core of [bot-tele-site.py]:
    [save_single_news], [update_month_manifest], [update_year_manifest],
    [convert_full_to_slim], [gi_append_records], the two marker files and
    the orchestration in [run].  Files are modelled by typed stores keyed by
    their path; writes are taken to succeed (the source logs and swallows a
    failed write, which is an event of the environment, not of the program).
    Feed parsing, HTML stripping, image processing and the outbound calls are
    external: a feed entry carries what the extraction helpers return for it,
    and the outcome of each outbound call is a field of the [world] a run
    executes in. *)

From Stdlib Require Import Ascii String.
From stdpp Require Import base option list gmap strings pretty sorting.

Local Open Scope stdpp_scope.

(** ** Text primitives of the host language *)

Module Text.

(** [str.isspace] on one character, for code points below 256:
    TAB, LF, VT, FF, CR, the separators FS, GS, RS, US, the space,
    NEL and the no-break space. *)
Definition isspace (c : ascii) : bool :=
  match c with
  | "009" | "010" | "011" | "012" | "013"
  | "028" | "029" | "030" | "031" | " " | "133" | "160" => true
  | _ => false
  end%char.

Fixpoint lstrip (s : string) : string :=
  match s with
  | "" => ""
  | String c s' => if isspace c then lstrip s' else s
  end.

Fixpoint rstrip (s : string) : string :=
  match s with
  | "" => ""
  | String c s' =>
      match rstrip s' with
      | "" => if isspace c then "" else String c ""
      | r => String c r
      end
  end.

(** [s.strip()] *)
Definition strip (s : string) : string := rstrip (lstrip s).

(** [x or ""] for a value that is a string or [None]. *)
Definition or_empty (o : option string) : string := default "" o.

(** Truthiness of a string-or-[None] value. *)
Definition truthy (o : option string) : bool :=
  match o with
  | Some (String _ _) => true
  | _ => false
  end.

(** [s or None] *)
Definition or_none (s : string) : option string :=
  match s with
  | "" => None
  | _ => Some s
  end.

(** [s.endswith(suf)] *)
Definition endswith (suf s : string) : bool :=
  bool_decide (String.length suf ≤ String.length s) &&
  String.eqb (String.substring (String.length s - String.length suf)
                               (String.length suf) s) suf.

(** [f"{n:02d}"] for a natural number: decimal, zero-padded to width 2. *)
Definition fmt02 (n : nat) : string :=
  let s := pretty n in
  if String.length s <? 2 then "0" +:+ s else s.

(** [s.split(sep)[0]] for a one-character separator. *)
Fixpoint split_head (sep : ascii) (s : string) : string :=
  match s with
  | "" => ""
  | String c s' => if Ascii.eqb c sep then "" else String c (split_head sep s')
  end.

(** [s.rfind(ch)] for a one-character [ch], [None] for [-1]. *)
Fixpoint rfind (ch : ascii) (s : string) : option nat :=
  match s with
  | "" => None
  | String c s' =>
      match rfind ch s' with
      | Some i => Some (S i)
      | None => if Ascii.eqb c ch then Some 0 else None
      end
  end.

(** [s.removeprefix(p)] when [s] starts with [p], [None] otherwise. *)
Fixpoint strip_prefix (p s : string) : option string :=
  match p, s with
  | "", _ => Some s
  | String a p', String b s' => if Ascii.eqb a b then strip_prefix p' s' else None
  | String _ _, "" => None
  end.

(** [PurePath.stem]: the final component without its last suffix; a
    leading or a trailing dot does not start a suffix. *)
Definition stem (name : string) : string :=
  match rfind "." name with
  | Some i =>
      if bool_decide (0 < i) && bool_decide (i < String.length name - 1)
      then String.substring 0 i name
      else name
  | None => name
  end.

End Text.

(** ** Data model *)

(** A calendar date as [datetime] exposes it. *)
Record date := Date { year : nat; month : nat; day : nat }.

(** What the extraction helpers give for a feed entry:
    [getattr(entry, "title", "")], [extract_image], [extract_full_text],
    [extract_categories]. *)
Record entry := Entry {
  entry_title : option string;
  entry_image : option string;
  entry_full_text : string;
  entry_categories : list string
}.

(** A daily record as it is read back from a daily file: a key that is
    missing or [null] reads as [None]. *)
Record record := Record_ {
  title : option string;
  description_full : option string;
  image : option string;
  categories : option (list string)
}.

(** A slim record of the global index. *)
Record slim := Slim {
  slim_title : option string;
  slim_image : option string;
  slim_categories : list string;
  slim_path : option string
}.

(** Content of a JSON file that is expected to hold a list. *)
Inductive jfile (A : Type) : Type :=
| Unparseable
| NotAList
| JList (l : list A).
Arguments Unparseable {A}.
Arguments NotAList {A}.
Arguments JList {A} l.

Global Instance record_eq_dec : EqDecision record.
Proof. solve_decision. Defined.
Global Instance slim_eq_dec : EqDecision slim.
Proof. solve_decision. Defined.

(** Content of [pagination.json]. *)
Record pagination := Pagination {
  total_articles : option Z;
  files : list string
}.

Inductive pfile : Type :=
| PUnparseable
| PParsed (pag : pagination).

(** Content of [stats.json]. *)
Record stats := Stats {
  stats_total_articles : Z;
  stats_added_today : nat;
  stats_last_update : string
}.

(** A [dict] with string keys and values, in insertion order. *)
Definition dict : Type := list (string * string).

Record month_manifest := MonthManifest {
  mm_year : string;
  mm_month : string;
  mm_days : dict
}.

Record year_manifest := YearManifest {
  ym_year : string;
  ym_months : dict
}.

(** The files and directories the program owns.  Text files hold their raw
    content; an absent file has no entry. *)
Record fs := Fs {
  fs_dirs : gset string;
  fs_daily : gmap string (jfile record);
  fs_month : gmap string month_manifest;
  fs_year : gmap string year_manifest;
  fs_pages : gmap string (jfile slim);
  fs_pagination : option pfile;
  fs_stats : option stats;
  fs_news_marker : option string;
  fs_yt_marker : option string
}.

(** ** Utilities *)

Definition DATA_BASE : string := "data".
Definition GLOBAL_INDEX : string := "global_index".
Definition GLOBAL_PAGE_SIZE : nat := 500.

(** [p / name] followed by [str] or [as_posix]. *)
Definition joinpath (p name : string) : string := p +:+ "/" +:+ name.

(** [Path.parent] *)
Definition parent (p : string) : string :=
  match Text.rfind "/" p with
  | Some 0 => "/"
  | Some i => String.substring 0 i p
  | None => "."
  end.

Definition ensure_dir (p : string) (s : fs) : fs :=
  Fs ({[p]} ∪ fs_dirs s) (fs_daily s) (fs_month s) (fs_year s)
     (fs_pages s) (fs_pagination s) (fs_stats s)
     (fs_news_marker s) (fs_yt_marker s).

Definition month_dir_of (y m : nat) : string :=
  joinpath (joinpath DATA_BASE (pretty y)) (Text.fmt02 m).

Definition daily_name (d m : nat) : string :=
  Text.fmt02 d +:+ "-" +:+ Text.fmt02 m +:+ ".json".

(** [daily_path] creates the month directory and returns the day's path. *)
Definition daily_path (dt : date) (s : fs) : string * fs :=
  let out_dir := month_dir_of (year dt) (month dt) in
  (joinpath out_dir (daily_name (day dt) (month dt)), ensure_dir out_dir s).

Definition load_json_list {A} (store : gmap string (jfile A)) (path : string) : list A :=
  match store !! path with
  | Some (JList l) => l
  | _ => []
  end.

Definition set_daily (s : fs) (d : gmap string (jfile record)) : fs :=
  Fs (fs_dirs s) d (fs_month s) (fs_year s)
     (fs_pages s) (fs_pagination s) (fs_stats s)
     (fs_news_marker s) (fs_yt_marker s).

Definition set_pages (s : fs) (p : gmap string (jfile slim)) : fs :=
  Fs (fs_dirs s) (fs_daily s) (fs_month s) (fs_year s)
     p (fs_pagination s) (fs_stats s)
     (fs_news_marker s) (fs_yt_marker s).

(** [save_json_list]: the parent directory is created, then the file is
    overwritten with the list.  The two wrappers apply it to a daily file
    and to an index page. *)
Definition save_json_list {A} (store : gmap string (jfile A)) (path : string)
    (data : list A) : gmap string (jfile A) :=
  <[path := JList data]> store.
Global Arguments save_json_list {A} store path data /.

Definition save_daily_list (path : string) (data : list record) (s : fs) : fs :=
  let s := ensure_dir (parent path) s in
  set_daily s (save_json_list (fs_daily s) path data).

Definition save_page_list (path : string) (data : list slim) (s : fs) : fs :=
  let s := ensure_dir (parent path) s in
  set_pages s (save_json_list (fs_pages s) path data).

Definition read_text_file (content : option string) : option string :=
  match content with
  | None => None
  | Some c => Text.or_none (Text.strip c)
  end.

(** The content [write_text_file] leaves in the file. *)
Definition write_text_file (value : option string) : option string :=
  Some (Text.strip (Text.or_empty value) +:+ String "010"%char "").

(** ** RSS extraction helpers *)

Definition build_daily_record (e : entry) : record :=
  {| title := Some (Text.or_empty (entry_title e));
     description_full := Some (entry_full_text e);
     image := entry_image e;
     categories := Some (entry_categories e) |}.

Definition get_entry_identity (e : entry) : string :=
  Text.strip (Text.or_empty (entry_title e)) +:+ "|" +:+
  Text.strip (Text.or_empty (entry_image e)).

(** The key computed for a stored record inside [save_single_news]. *)
Definition record_key (x : record) : string :=
  Text.strip (Text.or_empty (title x)) +:+ "|" +:+
  Text.strip (Text.or_empty (image x)).

(** ** Daily record store *)

Definition save_single_news (today : date) (e : entry) (s : fs)
  : option record * string * fs :=
  let '(path, s) := daily_path today s in
  let existing := load_json_list (fs_daily s) path in
  let fp := get_entry_identity e in
  let existing_fp : gset string := list_to_set (record_key <$> existing) in
  if decide (fp ∈ existing_fp) then (None, path, s)
  else
    let rec := build_daily_record e in
    (Some rec, path, save_daily_list path (existing ++ [rec]) s).

(** ** Manifests (month/year) *)

(** [d[k] = v]: an existing key keeps its position. *)
Fixpoint dict_set (k v : string) (d : dict) : dict :=
  match d with
  | [] => [(k, v)]
  | (k', v') :: d' =>
      if decide (k = k') then (k, v) :: d' else (k', v') :: dict_set k v d'
  end.

(** [d.get(k)] *)
Fixpoint dict_get (k : string) (d : dict) : option string :=
  match d with
  | [] => None
  | (k', v') :: d' => if decide (k = k') then Some v' else dict_get k d'
  end.

(** [sorted(names)]: ascending by code point. *)
Definition sorted_asc (names : list string) : list string :=
  merge_sort String.le names.

(** The order of [sorted(d.items(), key=lambda kv: kv[0], reverse=True)]. *)
Definition key_ge (a b : string * string) : Prop := String.le b.1 a.1.

Global Instance key_ge_dec : RelDecision key_ge.
Proof. intros a b. unfold key_ge. apply _. Defined.

Definition sorted_desc_by_key (d : dict) : dict := merge_sort key_ge d.

(** The entries of directory [dir]: the first path component below it of
    every file and directory that exists. *)
Definition entry_below (dir p : string) : option string :=
  match Text.strip_prefix (dir +:+ "/") p with
  | Some (String c r) =>
      match Text.split_head "/" (String c r) with
      | "" => None
      | name => Some name
      end
  | _ => None
  end.

Definition data_paths (s : fs) : list string :=
  elements (fs_dirs s) ++ elements (dom (fs_daily s)) ++
  elements (dom (fs_month s)) ++ elements (dom (fs_year s)).

Definition listdir (s : fs) (dir : string) : list string :=
  remove_dups (omap (entry_below dir) (data_paths s)).

Definition MONTH_MANIFEST : string := "month_manifest.json".

(** The key of a daily file: [p.stem.split("-")[0]]. *)
Definition day_key (name : string) : string :=
  Text.split_head "-" (Text.stem name).

(** One turn of the loop of [update_month_manifest]. *)
Definition month_loop_body (month_dir : string) (days : dict) (name : string) : dict :=
  if decide (name = MONTH_MANIFEST) then days
  else dict_set (day_key name) (joinpath month_dir name) days.

(** The loop over the sorted matches of [month_dir.glob("*.json")],
    followed by the descending sort. *)
Definition month_days (month_dir : string) (listing : list string) : dict :=
  let matches := sorted_asc (filter (λ n, Is_true (Text.endswith ".json" n)) listing) in
  let days := foldl (month_loop_body month_dir) [] matches in
  sorted_desc_by_key days.

Definition update_month_manifest (dt : date) (s : fs) : fs :=
  let y := year dt in
  let m := month dt in
  let month_dir := month_dir_of y m in
  let s := ensure_dir month_dir s in
  let manifest_path := joinpath month_dir MONTH_MANIFEST in
  let manifest :=
    {| mm_year := pretty y;
       mm_month := Text.fmt02 m;
       mm_days := month_days month_dir (listdir s month_dir) |} in
  Fs (fs_dirs s) (fs_daily s) (<[manifest_path := manifest]> (fs_month s))
     (fs_year s) (fs_pages s) (fs_pagination s) (fs_stats s)
     (fs_news_marker s) (fs_yt_marker s).

(** [fnmatch] against ["[0-1][0-9]"]. *)
Definition is_month_name (name : string) : bool :=
  match name with
  | String a (String b "") =>
      (Ascii.leb "0" a && Ascii.leb a "1") && (Ascii.leb "0" b && Ascii.leb b "9")
  | _ => false
  end.

Definition year_months (year_dir : string) (listing : list string) : dict :=
  let matches := sorted_asc (filter (λ n, Is_true (is_month_name n)) listing) in
  let months :=
    foldl (λ months m, dict_set m (joinpath (joinpath year_dir m) MONTH_MANIFEST) months)
          [] matches in
  sorted_desc_by_key months.

Definition update_year_manifest (dt : date) (s : fs) : fs :=
  let y := year dt in
  let year_dir := joinpath DATA_BASE (pretty y) in
  let s := ensure_dir year_dir s in
  let manifest_path := joinpath year_dir "year_manifest.json" in
  let manifest :=
    {| ym_year := pretty y;
       ym_months := year_months year_dir (listdir s year_dir) |} in
  Fs (fs_dirs s) (fs_daily s) (fs_month s)
     (<[manifest_path := manifest]> (fs_year s))
     (fs_pages s) (fs_pagination s) (fs_stats s)
     (fs_news_marker s) (fs_yt_marker s).

(** ** Global index (pagination + stats) *)

Definition gi_load_pagination (s : fs) : pagination * fs :=
  let s := ensure_dir GLOBAL_INDEX s in
  match fs_pagination s with
  | Some (PParsed pag) => (pag, s)
  | _ => ({| total_articles := Some 0%Z; files := [] |}, s)
  end.

Definition gi_save_pagination (pag : pagination) (s : fs) : fs :=
  let s := ensure_dir GLOBAL_INDEX s in
  Fs (fs_dirs s) (fs_daily s) (fs_month s) (fs_year s) (fs_pages s)
     (Some (PParsed pag)) (fs_stats s) (fs_news_marker s) (fs_yt_marker s).

Definition gi_save_stats (now : string) (total : Z) (added_today : nat) (s : fs) : fs :=
  let s := ensure_dir GLOBAL_INDEX s in
  Fs (fs_dirs s) (fs_daily s) (fs_month s) (fs_year s) (fs_pages s)
     (fs_pagination s)
     (Some {| stats_total_articles := total;
              stats_added_today := added_today;
              stats_last_update := now |})
     (fs_news_marker s) (fs_yt_marker s).

Definition convert_full_to_slim (records : list record) (source_path : option string)
  : list slim :=
  imap (λ i r,
          {| slim_title := title r;
             slim_image := image r;
             slim_categories := default [] (categories r);
             slim_path :=
               if Text.truthy source_path
               then Some (Text.or_empty source_path +:+ "#" +:+ pretty i)
               else None |})
       records.

Definition index_name (n : nat) : string := "index_" +:+ pretty n +:+ ".json".

Definition gi_append_records (now : string) (new_records : list slim) (s : fs) : fs :=
  match new_records with
  | [] => s
  | _ :: _ =>
      let '(pag, s) := gi_load_pagination s in
      let '(fl, s) :=
        match files pag with
        | [] => (files pag ++ ["index_1.json"],
                 save_page_list (joinpath GLOBAL_INDEX "index_1.json") [] s)
        | _ :: _ => (files pag, s)
        end in
      let current_filename := default "" (last fl) in
      let current_file := joinpath GLOBAL_INDEX current_filename in
      let items := load_json_list (fs_pages s) current_file in
      let '(fl, current_file, items, s) :=
        if bool_decide (GLOBAL_PAGE_SIZE ≤ length items) then
          let next_idx := length fl + 1 in
          let current_filename := index_name next_idx in
          let current_file := joinpath GLOBAL_INDEX current_filename in
          (fl ++ [current_filename], current_file, [],
           save_page_list current_file [] s)
        else (fl, current_file, items, s) in
      let items := items ++ new_records in
      let s := save_page_list current_file items s in
      let total := (default 0 (total_articles pag) + Z.of_nat (length new_records))%Z in
      let pag := {| total_articles := Some total; files := fl |} in
      let s := gi_save_pagination pag s in
      gi_save_stats now total (length new_records) s
  end.
Global Arguments gi_append_records : simpl never.

(** ** Senders and the run *)

(** A video feed entry: [yt_videoid], [id]. *)
Record yt_entry := YtEntry {
  yt_videoid : option string;
  yt_id : option string
}.

(** Everything a run observes outside the files: the configuration, the two
    feeds, the clock at the two places [run] reads the date, the timestamp
    written to the stats, and whether each outbound send returns ([true]) or
    raises ([false]).  The upload reports its failure by its return value,
    which [run] drops, so it has no field. *)
Record world := World {
  w_configured : bool;
  w_news_entries : list entry;
  w_yt_entries : list yt_entry;
  w_today_save : date;
  w_today_manifest : date;
  w_now : string;
  w_news_photo_ok : bool;
  w_news_message_ok : bool;
  w_yt_send_ok : bool
}.

(** How a coroutine ends: it returns, or an exception leaves it. *)
Inductive outcome : Type :=
| Returned (s : fs)
| Raised (s : fs).

Definition final (o : outcome) : fs :=
  match o with
  | Returned s => s
  | Raised s => s
  end.

Definition set_news_marker (s : fs) (c : option string) : fs :=
  Fs (fs_dirs s) (fs_daily s) (fs_month s) (fs_year s) (fs_pages s)
     (fs_pagination s) (fs_stats s) c (fs_yt_marker s).

Definition set_yt_marker (s : fs) (c : option string) : fs :=
  Fs (fs_dirs s) (fs_daily s) (fs_month s) (fs_year s) (fs_pages s)
     (fs_pagination s) (fs_stats s) (fs_news_marker s) c.

(** [send_crunchyroll_one]: [true] when it returns.  A failed photo send is
    caught and falls through to the text message; the text message is sent
    outside any handler. *)
Definition send_crunchyroll_one (w : world) (e : entry) : bool :=
  let rec := build_daily_record e in
  let img_url := image rec in
  if Text.truthy img_url then
    if w_news_photo_ok w then true else w_news_message_ok w
  else w_news_message_ok w.

(** [getattr(entry, "yt_videoid", None) or getattr(entry, "id", None) or ""] *)
Definition yt_identity (e : yt_entry) : string :=
  if Text.truthy (yt_videoid e) then Text.or_empty (yt_videoid e)
  else if Text.truthy (yt_id e) then Text.or_empty (yt_id e)
  else "".

Definition send_youtube_latest_if_new (w : world) (s : fs) : fs :=
  match w_yt_entries w with
  | [] => s
  | e :: _ =>
      let vid := yt_identity e in
      let last_vid := read_text_file (fs_yt_marker s) in
      if Text.truthy last_vid && Text.truthy (Some vid)
         && bool_decide (Some vid = last_vid)
      then s
      else if w_yt_send_ok w
           then set_yt_marker s (write_text_file (Some vid))
           else s
  end.

(** The Crunchyroll part of [run]. *)
Definition run_news (w : world) (s : fs) : outcome :=
  match w_news_entries w with
  | latest :: _ =>
      let fp := get_entry_identity latest in
      let last_fp := read_text_file (fs_news_marker s) in
      if Text.truthy last_fp && bool_decide (Some fp = last_fp) then Returned s
      else
        let '(rec, day_path, s) := save_single_news (w_today_save w) latest s in
        match rec with
        | Some rec =>
            if send_crunchyroll_one w latest then
              let today := w_today_manifest w in
              let s := update_month_manifest today s in
              let s := update_year_manifest today s in
              let slim := convert_full_to_slim [rec] (Some day_path) in
              let s := gi_append_records (w_now w) slim s in
              Returned (set_news_marker s (write_text_file (Some fp)))
            else Raised s
        | None => Returned (set_news_marker s (write_text_file (Some fp)))
        end
  | [] => Returned s
  end.

Definition run (w : world) (s : fs) : outcome :=
  if negb (w_configured w) then Returned s
  else
    match run_news w s with
    | Returned s => Returned (send_youtube_latest_if_new w s)
    | Raised s => Raised s
    end.

Definition empty_fs : fs := Fs ∅ ∅ ∅ ∅ ∅ None None None None.

(** Number of records of a daily sequence that carry the dedup key [k]. *)
Definition copies (k : string) (l : list record) : nat :=
  length (filter (λ x, record_key x = k) l).

(** The day's sequence as [save_single_news] finds it. *)
Definition day_sequence (today : date) (s : fs) : list record :=
  match fs_daily s !! (daily_path today s).1 with
  | Some (JList l) => l
  | Some Unparseable | Some NotAList | None => []
  end.

(** The descriptor as [gi_load_pagination] reads it, the page a file name
    denotes, and the page the descriptor registers last. *)
Definition loaded_pagination (s : fs) : pagination := (gi_load_pagination s).1.

Definition page_path (name : string) : string := joinpath GLOBAL_INDEX name.

Definition page_items (s : fs) (name : string) : list slim :=
  load_json_list (fs_pages s) (page_path name).

Definition current_items (s : fs) : list slim :=
  match last (files (loaded_pagination s)) with
  | Some f => page_items s f
  | None => []
  end.

Definition current_size (s : fs) : nat := length (current_items s).

(** One [gi_append_records] call per element, each with its own timestamp
    and a one-record batch. *)
Definition gi_append_each (calls : list (string * slim)) (s : fs) : fs :=
  foldl (λ s c, gi_append_records c.1 [c.2] s) s calls.

(** The states met while the first page fills up. *)
Definition first_page_only (n : Z) (l : list slim) (s : fs) : Prop :=
  fs_pagination s
  = Some (PParsed {| total_articles := Some n; files := ["index_1.json"] |}) ∧
  fs_pages s = {[ page_path "index_1.json" := JList l ]}.

(** The files the loop of [update_month_manifest] keeps. *)
Definition is_day_file (listing : list string) (n : string) : Prop :=
  n ∈ listing ∧ Text.endswith ".json" n = true ∧ n ≠ MONTH_MANIFEST.

(** No character of [s] is [c]. *)
Fixpoint lacks (c : ascii) (s : string) : bool :=
  match s with
  | "" => true
  | String x s' => negb (Ascii.eqb x c) && lacks c s'
  end.

(** A string that [strip] leaves as it is. *)
Definition trimmed (x : string) : Prop := Text.lstrip x = x ∧ Text.rstrip x = x.

(** The [j]-th run of [GLOBAL_PAGE_SIZE] records of a stream, and the index
    that holds a stream cut into such runs: page [index_<j+1>.json] holds run
    [j], the descriptor lists the pages in order and counts the stream, and
    no other page file exists. *)
Definition chunk (j : nat) (l : list slim) : list slim :=
  take GLOBAL_PAGE_SIZE (drop (GLOBAL_PAGE_SIZE * j) l).

Definition paged (l : list slim) (s : fs) : Prop :=
  ∃ q r,
    length l = GLOBAL_PAGE_SIZE * q + r ∧ 1 ≤ r ≤ GLOBAL_PAGE_SIZE ∧
    fs_pagination s
    = Some (PParsed {| total_articles := Some (Z.of_nat (length l));
                       files := index_name <$> seq 1 (S q) |}) ∧
    (∀ j, j ≤ q → fs_pages s !! page_path (index_name (S j)) = Some (JList (chunk j l))) ∧
    (∀ p, is_Some (fs_pages s !! p) → ∃ j, j ≤ q ∧ p = page_path (index_name (S j))).

(** The number of slim records in the pages a list of names denotes, and an
    index whose descriptor names its pages [index_1.json] to [index_n.json]
    and counts exactly the records they hold. *)
Definition page_total (s : fs) (names : list string) : nat :=
  sum_list_with (λ f, length (page_items s f)) names.

Definition gi_consistent (s : fs) : Prop :=
  ∃ n, files (loaded_pagination s) = index_name <$> seq 1 n ∧
       default 0%Z (total_articles (loaded_pagination s))
       = Z.of_nat (page_total s (files (loaded_pagination s))).

(** ** Sample inputs *)

Definition sample_day : date := Date 2025 5 7.
Definition sample_entry_a : entry :=
  Entry (Some "A") (Some "http://x/1.png") "first" ["news"].
Definition sample_entry_a_spaced : entry :=
  Entry (Some "  A ") (Some " http://x/1.png  ") "first again" [].
Definition sample_entry_b : entry := Entry (Some "B") None "second" [].

(** A run that sees item A on an empty store, and a later run on the same
    day in which item B has become the latest item. *)
Definition world_a : world :=
  World true [sample_entry_a] [] sample_day sample_day "2025-05-07T10:00:00+01:00"
        true true true.
Definition world_b : world :=
  World true [sample_entry_b; sample_entry_a] [] sample_day sample_day
        "2025-05-07T11:00:00+01:00" true true true.
Definition state_after_a : fs := final (run world_a empty_fs).

(** A run in which the text message to the channel raises. *)
Definition world_message_fails : world :=
  World true [sample_entry_b] [] sample_day sample_day "2025-05-07T10:00:00+01:00"
        true false true.

(** An index whose only page is one record short of the page size. *)
Definition sample_slim : slim := Slim (Some "A") None [] (Some "data/2025/05/07-05.json#0").
Definition state_499 : fs :=
  Fs ∅ ∅ ∅ ∅
     {[ "global_index/index_1.json" := JList (replicate 499 sample_slim) ]}
     (Some (PParsed {| total_articles := Some 499%Z; files := ["index_1.json"] |}))
     None None None.

(** A month directory with three daily files and a manifest from an
    earlier run. *)
Definition state_three_days : fs :=
  Fs ∅
     {[ "data/2025/05/07-05.json" := JList [build_daily_record sample_entry_a];
        "data/2025/05/31-05.json" := JList [build_daily_record sample_entry_b];
        "data/2025/05/01-05.json" := JList [] ]}
     {[ "data/2025/05/month_manifest.json" := MonthManifest "2025" "05" [] ]}
     ∅ ∅ None None None None.

(** A video feed with one entry, and whether the send returns. *)
Definition sample_video : yt_entry := YtEntry (Some "dQw4w9WgXcQ") (Some "yt:video:dQw4w9WgXcQ").
Definition world_video (ok : bool) : world :=
  World true [] [sample_video] sample_day sample_day "2025-05-07T10:00:00+01:00"
        true true ok.

(** Two pages on disk and a descriptor that no longer parses. *)
Definition state_lost_descriptor : fs :=
  Fs ∅ ∅ ∅ ∅
     {[ "global_index/index_1.json" := JList (replicate 499 sample_slim);
        "global_index/index_2.json" := JList [sample_slim] ]}
     (Some PUnparseable) None None None.

(** One [save_single_news] call per entry, all on the day [today], each on
    the files the call before left. *)
Definition save_each (today : date) (es : list entry) (s : fs) : fs :=
  foldl (λ s e, (save_single_news today e s).2) s es.

(** The last name of a list that the loop keeps under the key [k]. *)
Definition last_with_key (k : string) (names : list string) : option string :=
  last (filter (λ n, n ≠ MONTH_MANIFEST ∧ day_key n = k) names).

(** * Properties *)

(** ** Text *)

Lemma or_none_truthy s v : Text.or_none s = Some v → Text.truthy (Some v) = true.
Proof. destruct s; simpl; [done|]. by intros [= <-]. Qed.

Lemma read_text_file_truthy c v :
  read_text_file c = Some v → Text.truthy (Some v) = true.
Proof. destruct c as [c|]; simpl; [apply or_none_truthy|done]. Qed.

(** ** Daily record store *)

Lemma key_of_built_record e : record_key (build_daily_record e) = get_entry_identity e.
Proof. unfold record_key, get_entry_identity. simpl. by destruct (entry_title e). Qed.

Lemma elem_of_existing_fp k (l : list record) :
  k ∈ (list_to_set (record_key <$> l) : gset string) ↔ ∃ x, x ∈ l ∧ record_key x = k.
Proof.
  rewrite elem_of_list_to_set, list_elem_of_fmap.
  split; intros (x & H1 & H2); exists x; done.
Qed.

Lemma copies_pos k l : (∃ x, x ∈ l ∧ record_key x = k) ↔ 0 < copies k l.
Proof.
  unfold copies. split.
  - intros (x & Hx & Hk).
    assert (x ∈ filter (λ x, record_key x = k) l) as Hin
      by (apply list_elem_of_filter; done).
    destruct (filter _ l); [by apply elem_of_nil in Hin | simpl; lia].
  - intros Hlen. destruct (filter _ l) as [|x l'] eqn:Hf; [simpl in Hlen; lia|].
    assert (x ∈ filter (λ x, record_key x = k) l) as Hin by (rewrite Hf; left).
    apply list_elem_of_filter in Hin as [Hk Hx]. by exists x.
Qed.

Lemma copies_snoc k l x :
  copies k (l ++ [x]) = copies k l + (if decide (record_key x = k) then 1 else 0).
Proof.
  unfold copies. rewrite filter_app, length_app. f_equal.
  rewrite filter_cons, filter_nil. by case_decide.
Qed.

Lemma day_sequence_load today s :
  load_json_list (fs_daily (daily_path today s).2) (daily_path today s).1
  = day_sequence today s.
Proof.
  unfold day_sequence, load_json_list. simpl.
  by destruct (fs_daily s !! _) as [[]|].
Qed.

Lemma save_single_news_dup today e s :
  (∃ x, x ∈ day_sequence today s ∧ record_key x = get_entry_identity e) →
  save_single_news today e s = (None, (daily_path today s).1, (daily_path today s).2).
Proof.
  intros Hdup. unfold save_single_news.
  destruct (daily_path today s) as [path s1] eqn:Hp.
  pose proof (day_sequence_load today s) as Hl. rewrite Hp in Hl. simpl in Hl.
  rewrite Hl. simpl. case_decide as Hin; [done|].
  exfalso. apply Hin. by apply elem_of_existing_fp.
Qed.

Lemma save_single_news_new today e s :
  (∀ x, x ∈ day_sequence today s → record_key x ≠ get_entry_identity e) →
  save_single_news today e s =
    (Some (build_daily_record e), (daily_path today s).1,
     save_daily_list (daily_path today s).1
       (day_sequence today s ++ [build_daily_record e]) (daily_path today s).2).
Proof.
  intros Hnew. unfold save_single_news.
  destruct (daily_path today s) as [path s1] eqn:Hp.
  pose proof (day_sequence_load today s) as Hl. rewrite Hp in Hl. simpl in Hl.
  rewrite Hl. simpl. case_decide as Hin; [|done].
  apply elem_of_existing_fp in Hin as (x & Hx & Hk). by destruct (Hnew x Hx).
Qed.

Lemma day_sequence_dec today e s :
  (∃ x, x ∈ day_sequence today s ∧ record_key x = get_entry_identity e) ∨
  (∀ x, x ∈ day_sequence today s → record_key x ≠ get_entry_identity e).
Proof.
  destruct (decide (get_entry_identity e ∈
    (list_to_set (record_key <$> day_sequence today s) : gset string))) as [Hin|Hin].
  - left. by apply elem_of_existing_fp.
  - right. intros x Hx Hk. apply Hin, elem_of_existing_fp. eauto.
Qed.

(** C3.  [save_single_news] reads the day's sequence, an absent, unparseable
    or non-list file counting as the empty sequence; the dedup key of the
    candidate is its trimmed title, a bar and its trimmed image.  When a
    stored record has that key the call returns no record and the path, and
    the daily files are untouched; otherwise the candidate goes to the end
    of the sequence, the whole sequence is written back, and the call
    returns the candidate and the path. *)
Theorem save_single_news_spec (today : date) (e : entry) (s : fs) :
  let path := joinpath (month_dir_of (year today) (month today))
                       (daily_name (day today) (month today)) in
  let existing :=
    match fs_daily s !! path with
    | Some (JList l) => l
    | Some Unparseable | Some NotAList | None => []
    end in
  let cand := build_daily_record e in
  let key := λ t i, Text.strip (Text.or_empty t) +:+ "|" +:+ Text.strip (Text.or_empty i) in
  ((∃ x, x ∈ existing ∧ key (title x) (image x) = key (entry_title e) (entry_image e)) →
   ∃ s', save_single_news today e s = (None, path, s') ∧
         fs_daily s' = fs_daily s) ∧
  ((∀ x, x ∈ existing → key (title x) (image x) ≠ key (entry_title e) (entry_image e)) →
   ∃ s', save_single_news today e s = (Some cand, path, s') ∧
         fs_daily s' = <[path := JList (existing ++ [cand])]> (fs_daily s)).
Proof.
  intros path existing cand key. split.
  - intros Hdup. rewrite (save_single_news_dup today e s Hdup). eauto.
  - intros Hnew. rewrite (save_single_news_new today e s Hnew). eauto.
Qed.

Lemma save_single_news_spec_witness :
  (∃ s', save_single_news sample_day sample_entry_a empty_fs
         = (Some (build_daily_record sample_entry_a),
            "data/2025/05/07-05.json", s') ∧
         fs_daily s' = <[ "data/2025/05/07-05.json" :=
                          JList [build_daily_record sample_entry_a] ]> ∅).
Proof.
  destruct (save_single_news_spec sample_day sample_entry_a empty_fs) as [_ Hnew].
  apply Hnew. intros x Hx. by apply elem_of_nil in Hx.
Defined.

Lemma day_sequence_ensure_dir today d s :
  day_sequence today (ensure_dir d s) = day_sequence today s.
Proof. reflexivity. Qed.

Lemma day_sequence_saved today l s :
  day_sequence today (save_daily_list (daily_path today s).1 l s) = l.
Proof.
  unfold day_sequence, save_daily_list. simpl. by rewrite lookup_insert_eq.
Qed.

Lemma identity_normalised e1 e2 :
  Text.strip (Text.or_empty (entry_title e1)) = Text.strip (Text.or_empty (entry_title e2)) →
  Text.strip (Text.or_empty (entry_image e1)) = Text.strip (Text.or_empty (entry_image e2)) →
  get_entry_identity e1 = get_entry_identity e2.
Proof. unfold get_entry_identity. by intros -> ->. Qed.

(** C7.  Two appends in a row on one day, for candidates whose titles and
    whose images agree once leading and trailing whitespace is removed (in
    particular for one and the same title and image): the second call
    reports a duplicate and writes nothing.  A stored copy of the candidate
    is a stored record with the candidate's dedup key; the day's file ends
    with as many copies as it had before, or one when it had none, so a day
    that had at most one copy, as every day written by [save_single_news]
    has, ends with exactly one. *)
Theorem save_single_news_twice (today : date) (e1 e2 : entry) (s : fs) :
  Text.strip (Text.or_empty (entry_title e1)) = Text.strip (Text.or_empty (entry_title e2)) →
  Text.strip (Text.or_empty (entry_image e1)) = Text.strip (Text.or_empty (entry_image e2)) →
  let k := get_entry_identity e1 in
  let '(r1, p1, s1) := save_single_news today e1 s in
  let '(r2, p2, s2) := save_single_news today e2 s1 in
  r2 = None ∧ fs_daily s2 = fs_daily s1 ∧
  copies k (day_sequence today s2) = Nat.max 1 (copies k (day_sequence today s)) ∧
  (copies k (day_sequence today s) ≤ 1 → copies k (day_sequence today s2) = 1).
Proof.
  intros Ht Hi k. pose proof (identity_normalised e1 e2 Ht Hi) as Hid.
  assert (∀ s1, (∃ x, x ∈ day_sequence today s1 ∧ record_key x = k) →
    save_single_news today e2 s1
    = (None, (daily_path today s1).1, (daily_path today s1).2)) as Hsecond.
  { intros s1 Hdup. apply save_single_news_dup. by rewrite <- Hid. }
  destruct (day_sequence_dec today e1 s) as [Hdup|Hnew].
  - rewrite (save_single_news_dup today e1 s Hdup).
    rewrite Hsecond by done.
    pose proof (proj1 (copies_pos _ _) Hdup) as Hpos. fold k in Hpos.
    repeat split; simpl; [|]; unfold day_sequence in *; simpl in *; lia.
  - rewrite (save_single_news_new today e1 s Hnew).
    set (l := day_sequence today s ++ [build_daily_record e1]).
    assert (copies k (day_sequence today s) = 0) as Hzero.
    { destruct (copies k (day_sequence today s)) eqn:Hc; [done|].
      assert (0 < copies k (day_sequence today s)) as Hpos by lia.
      apply copies_pos in Hpos as (x & Hx & Hk). by destruct (Hnew x Hx). }
    assert (copies k l = 1) as Hone.
    { unfold l. rewrite copies_snoc, Hzero, key_of_built_record.
      by rewrite decide_True. }
    assert (day_sequence today
              (save_daily_list (daily_path today s).1 l (daily_path today s).2) = l)
      as Hseq by apply (day_sequence_saved today l (daily_path today s).2).
    rewrite Hsecond.
    + repeat split; simpl; rewrite ?Hzero; try intros _;
        match goal with
        | |- context [day_sequence today ?t] =>
            replace (day_sequence today t) with l by (symmetry; exact Hseq)
        end; by rewrite Hone.
    + rewrite Hseq. apply copies_pos. lia.
Qed.

Lemma save_single_news_twice_witness :
  let '(r1, p1, s1) := save_single_news sample_day sample_entry_a empty_fs in
  let '(r2, p2, s2) := save_single_news sample_day sample_entry_a_spaced s1 in
  r2 = None ∧ fs_daily s2 = fs_daily s1 ∧
  copies "A|http://x/1.png" (day_sequence sample_day s2) = 1.
Proof.
  pose proof (save_single_news_twice sample_day sample_entry_a sample_entry_a_spaced
                empty_fs eq_refl eq_refl) as H.
  simpl in H.
  destruct (save_single_news sample_day sample_entry_a empty_fs) as [[r1 p1] s1].
  destruct (save_single_news sample_day sample_entry_a_spaced s1) as [[r2 p2] s2].
  destruct H as (Hr & Hd & Hc & _). split; [done|]. split; [done|].
  exact Hc.
Defined.

(** ** The run *)

Lemma run_news_skip (w : world) (s : fs) (latest : entry) (rest : list entry) :
  w_news_entries w = latest :: rest →
  read_text_file (fs_news_marker s) = Some (get_entry_identity latest) →
  run_news w s = Returned s.
Proof.
  intros Hfeed Hmark. unfold run_news. rewrite Hfeed, Hmark.
  rewrite (read_text_file_truthy _ _ Hmark). simpl.
  by rewrite bool_decide_eq_true_2.
Qed.

Lemma send_youtube_skip (w : world) (s : fs) (latest : yt_entry) (rest : list yt_entry) :
  w_yt_entries w = latest :: rest →
  read_text_file (fs_yt_marker s) = Some (yt_identity latest) →
  send_youtube_latest_if_new w s = s.
Proof.
  intros Hfeed Hmark. unfold send_youtube_latest_if_new. rewrite Hfeed, Hmark.
  rewrite (read_text_file_truthy _ _ Hmark). simpl.
  by rewrite bool_decide_eq_true_2.
Qed.

(** C9.  A source whose latest item has the identity the marker file holds
    is skipped without a write: the news part of the run returns the very
    state it was given (directories, daily files, manifests, index pages,
    pagination, stats and both markers), and so does the video part. *)
Theorem fingerprint_match_no_writes (w : world) (s : fs) :
  (∀ latest rest,
     w_news_entries w = latest :: rest →
     read_text_file (fs_news_marker s) = Some (get_entry_identity latest) →
     run_news w s = Returned s) ∧
  (∀ latest rest,
     w_yt_entries w = latest :: rest →
     read_text_file (fs_yt_marker s) = Some (yt_identity latest) →
     send_youtube_latest_if_new w s = s).
Proof.
  split; intros latest rest Hfeed Hmark.
  - by apply (run_news_skip w s latest rest).
  - by apply (send_youtube_skip w s latest rest).
Qed.

Lemma fingerprint_match_no_writes_witness :
  run_news world_a state_after_a = Returned state_after_a.
Proof.
  apply (proj1 (fingerprint_match_no_writes world_a state_after_a)
           sample_entry_a []); reflexivity.
Defined.

(** A run in which both sources are unchanged returns the state untouched. *)
Lemma run_unchanged_feeds w s n ns v vs :
  w_news_entries w = n :: ns →
  w_yt_entries w = v :: vs →
  read_text_file (fs_news_marker s) = Some (get_entry_identity n) →
  read_text_file (fs_yt_marker s) = Some (yt_identity v) →
  run w s = Returned s.
Proof.
  intros Hn Hv Hmn Hmv. unfold run. destruct (w_configured w); simpl; [|done].
  rewrite (run_news_skip w s n ns Hn Hmn).
  by rewrite (send_youtube_skip w s v vs Hv Hmv).
Qed.

(** The reference [convert_full_to_slim] gives a record is its index in the
    list it is handed; [run] hands it the one-element list [[rec]]. *)
Lemma slim_of_singleton rec p :
  Text.truthy (Some p) = true →
  slim_path <$> convert_full_to_slim [rec] (Some p) = [Some (p +:+ "#0")].
Proof. intros Hp. destruct p; [done|]. reflexivity. Qed.

(** C1, evaluated: a second item stored on a day that already holds one
    record sits at index 1 of the daily file, and the slim record written
    for it refers to index 0. *)
Theorem slim_reference_of_second_record :
  let s := final (run world_b state_after_a) in
  day_sequence sample_day s !! 1 = Some (build_daily_record sample_entry_b) ∧
  slim_path <$> load_json_list (fs_pages s) "global_index/index_1.json" !! 1
  = Some (Some "data/2025/05/07-05.json#0").
Proof. vm_compute. done. Qed.

(** C2, evaluated: the latest item, without an image, is new and is stored;
    the text message raises; the exception leaves [run] before the marker
    is written, so the marker is still absent. *)
Theorem marker_lost_when_message_raises :
  ∃ s, run world_message_fails empty_fs = Raised s ∧
       day_sequence sample_day s = [build_daily_record sample_entry_b] ∧
       read_text_file (fs_news_marker s) = None ∧
       get_entry_identity sample_entry_b = "B|".
Proof. eexists. vm_compute. done. Qed.

(** ** Global index *)

(** C10.  An empty batch leaves the whole state as it is: no page is
    created, the descriptor is neither read nor written, and the stats are
    kept. *)
Theorem gi_append_empty (now : string) (s : fs) :
  gi_append_records now [] s = s ∧
  fs_pages (gi_append_records now [] s) = fs_pages s ∧
  fs_pagination (gi_append_records now [] s) = fs_pagination s ∧
  fs_stats (gi_append_records now [] s) = fs_stats s ∧
  fs_dirs (gi_append_records now [] s) = fs_dirs s.
Proof. done. Qed.

Lemma index_name_1 : index_name 1 = "index_1.json".
Proof. reflexivity. Qed.

Lemma gi_append_records_nonempty now (b : list slim) (s : fs) :
  b ≠ [] →
  let pag := loaded_pagination s in
  let fl1 := match files pag with [] => [index_name 1] | _ :: _ => files pag end in
  let rotate := bool_decide (GLOBAL_PAGE_SIZE ≤ current_size s) in
  let cur' := if rotate then index_name (length fl1 + 1) else default "" (last fl1) in
  let fl' := if rotate then fl1 ++ [cur'] else fl1 in
  fs_pages (gi_append_records now b s)
  = <[page_path cur' := JList ((if rotate then [] else current_items s) ++ b)]>
      (fs_pages s) ∧
  fs_pagination (gi_append_records now b s)
  = Some (PParsed {| total_articles :=
                       Some (default 0 (total_articles pag) + Z.of_nat (length b))%Z;
                     files := fl' |}).
Proof.
  intros Hb. destruct b as [|r b]; [done|]. clear Hb.
  unfold current_size, current_items, loaded_pagination, page_items, page_path.
  unfold gi_append_records, gi_load_pagination.
  assert (∀ (m : gmap string (jfile slim)) p,
    load_json_list (<[p := JList []]> m) p = []) as Hfresh.
  { intros m p. unfold load_json_list. by rewrite lookup_insert_eq. }
  assert (bool_decide (GLOBAL_PAGE_SIZE ≤ 0) = false) as Hcap
    by (apply bool_decide_eq_false_2; unfold GLOBAL_PAGE_SIZE; lia).
  destruct (fs_pagination (ensure_dir GLOBAL_INDEX s)) as [[|[t [|f fl]]]|] eqn:Hpag;
    simpl; rewrite ?Hfresh; simpl; rewrite ?Hcap, ?index_name_1; simpl;
    try by rewrite insert_insert_eq.
  clear Hcap Hfresh.
  destruct (last (f :: fl)) as [cur|] eqn:Hlast; [|by apply last_None in Hlast].
  simpl. case_bool_decide; simpl; [by rewrite insert_insert_eq | done].
Qed.

Lemma loaded_pagination_parsed s pag :
  fs_pagination s = Some (PParsed pag) → loaded_pagination s = pag.
Proof.
  intros Hp. unfold loaded_pagination, gi_load_pagination. simpl. by rewrite Hp.
Qed.

Lemma current_size_no_pages s :
  files (loaded_pagination s) = [] → current_size s = 0.
Proof. intros Hfl. unfold current_size, current_items. by rewrite Hfl. Qed.

(** What a non-empty batch does to the registered pages: [kept] is what the
    receiving page holds before the batch is added. *)
Lemma gi_append_records_pages now (b : list slim) (s : fs) :
  b ≠ [] →
  let s' := gi_append_records now b s in
  let fl := files (loaded_pagination s) in
  let rotate := bool_decide (GLOBAL_PAGE_SIZE ≤ current_size s) in
  ∃ cur',
    last (files (loaded_pagination s')) = Some cur' ∧
    files (loaded_pagination s')
    = (if rotate then fl ++ [index_name (length fl + 1)]
       else match fl with [] => [index_name 1] | _ :: _ => fl end) ∧
    fs_pages s'
    = <[page_path cur' := JList ((if rotate then [] else current_items s) ++ b)]>
        (fs_pages s) ∧
    total_articles (loaded_pagination s')
    = Some (default 0 (total_articles (loaded_pagination s)) + Z.of_nat (length b))%Z.
Proof.
  intros Hb s' fl rotate.
  destruct (gi_append_records_nonempty now b s Hb) as [Hpages Hpag].
  fold s' in Hpages, Hpag. fold fl rotate in Hpages, Hpag.
  rewrite (loaded_pagination_parsed _ _ Hpag). simpl.
  destruct rotate eqn:Hrot.
  - assert (fl ≠ []) as Hne.
    { intros Hnil. apply bool_decide_eq_true_1 in Hrot.
      rewrite (current_size_no_pages s Hnil) in Hrot.
      unfold GLOBAL_PAGE_SIZE in Hrot. lia. }
    destruct fl as [|f fl0] eqn:Hfl; [done|].
    eexists. split; [apply last_snoc|]. split; [done|]. split; [|done].
    exact Hpages.
  - destruct fl as [|f fl0] eqn:Hfl.
    + exists (index_name 1). split; [done|]. split; [done|]. split; [|done].
      exact Hpages.
    + destruct (last (f :: fl0)) as [cur|] eqn:Hlast;
        [|by apply last_None in Hlast].
      exists cur. split; [done|]. split; [done|]. split; [|done].
      exact Hpages.
Qed.

Lemma page_items_insert (s s' : fs) name l :
  fs_pages s' = <[page_path name := JList l]> (fs_pages s) →
  page_items s' name = l.
Proof.
  intros Hp. unfold page_items, load_json_list. by rewrite Hp, lookup_insert_eq.
Qed.

(** C5.  For a non-empty batch the only test is the size the descriptor's
    last page has before the call against the page size.  At or above it, a
    page named after the length of the file list is registered and receives
    exactly the batch; below it, the same page keeps its items and receives
    the whole batch after them, also when that takes it over the page size.
    No other page is written, so a batch never spans two pages. *)
Theorem gi_append_never_splits (now : string) (b : list slim) (s : fs) :
  b ≠ [] →
  let s' := gi_append_records now b s in
  let fl := files (loaded_pagination s) in
  let fl' := files (loaded_pagination s') in
  ∃ cur',
    last fl' = Some cur' ∧
    (GLOBAL_PAGE_SIZE ≤ current_size s →
       fl' = fl ++ [index_name (length fl + 1)] ∧ page_items s' cur' = b) ∧
    (current_size s < GLOBAL_PAGE_SIZE →
       (fl ≠ [] → fl' = fl) ∧ (fl = [] → fl' = ["index_1.json"]) ∧
       page_items s' cur' = current_items s ++ b ∧
       (GLOBAL_PAGE_SIZE < current_size s + length b →
        GLOBAL_PAGE_SIZE < length (page_items s' cur'))) ∧
    (∀ p, p ≠ page_path cur' → fs_pages s' !! p = fs_pages s !! p).
Proof.
  intros Hb s' fl fl'.
  destruct (gi_append_records_pages now b s Hb) as (cur' & Hlast & Hfl & Hpages & _).
  fold s' in Hlast, Hfl, Hpages. fold fl in Hfl. fold fl' in Hlast, Hfl.
  exists cur'. split; [done|]. split; [|split].
  - intros Hfull. rewrite bool_decide_eq_true_2 in Hfl, Hpages by done.
    split; [done|]. by apply (page_items_insert s).
  - intros Hroom. rewrite bool_decide_eq_false_2 in Hfl, Hpages by lia.
    pose proof (page_items_insert s s' _ _ Hpages) as Hitems.
    split; [|split; [|split]].
    + intros Hne. by destruct fl.
    + intros ->. by rewrite Hfl, index_name_1.
    + done.
    + intros Hover. rewrite Hitems, length_app. unfold current_size in Hover. lia.
  - intros p Hp. rewrite Hpages. by apply lookup_insert_ne.
Qed.

Lemma gi_append_never_splits_witness :
  ∃ cur',
    last (files (loaded_pagination
            (gi_append_records "t" [sample_slim; sample_slim; sample_slim] state_499)))
    = Some cur' ∧
    GLOBAL_PAGE_SIZE
    < length (page_items
                (gi_append_records "t" [sample_slim; sample_slim; sample_slim] state_499)
                cur').
Proof.
  destruct (gi_append_never_splits "t" [sample_slim; sample_slim; sample_slim] state_499)
    as (cur' & Hlast & _ & Hroom & _); [done|].
  exists cur'. split; [exact Hlast|].
  apply Hroom; apply Nat.ltb_lt; vm_compute; reflexivity.
Defined.

(** C6.  Whatever the batch, the file list after the call is the list
    before it, or that list with one name added at its end, the name being
    [index_N.json] for [N] one more than the length of the list; every page
    file other than the one registered last after the call is as it was;
    and a non-empty batch ends up, whole and in order, at the end of that
    last page.  An empty batch changes no page at all. *)
Theorem gi_append_preserves_descriptor (now : string) (b : list slim) (s : fs) :
  let s' := gi_append_records now b s in
  let fl := files (loaded_pagination s) in
  let fl' := files (loaded_pagination s') in
  (fl' = fl ∨ fl' = fl ++ [index_name (length fl + 1)]) ∧
  (∀ p, page_path <$> last fl' ≠ Some p → fs_pages s' !! p = fs_pages s !! p) ∧
  (b ≠ [] → ∃ cur' kept, last fl' = Some cur' ∧ page_items s' cur' = kept ++ b) ∧
  (b = [] → fs_pages s' = fs_pages s).
Proof.
  intros s' fl fl'. destruct (decide (b = [])) as [->|Hb].
  - repeat split; [by left|done..].
  - destruct (gi_append_records_pages now b s Hb) as (cur' & Hlast & Hfl & Hpages & _).
    fold s' in Hlast, Hfl, Hpages. fold fl in Hfl. fold fl' in Hlast, Hfl.
    split; [|split; [|split]].
    + rewrite Hfl. case_bool_decide; [by right|].
      destruct fl; [right; by rewrite index_name_1|by left].
    + intros p Hp. rewrite Hpages. apply lookup_insert_ne.
      intros <-. apply Hp. by rewrite Hlast.
    + intros _. eexists cur', _. split; [done|].
      by apply (page_items_insert s).
    + done.
Qed.

Lemma gi_append_preserves_descriptor_witness :
  ∃ cur' kept,
    last (files (loaded_pagination (gi_append_records "t" [sample_slim] state_499)))
    = Some cur' ∧
    page_items (gi_append_records "t" [sample_slim] state_499) cur'
    = kept ++ [sample_slim].
Proof.
  destruct (gi_append_preserves_descriptor "t" [sample_slim] state_499)
    as (_ & _ & Hlast & _).
  by apply Hlast.
Defined.

(** *** Rotation after a full first page *)

Lemma first_page_current_items n l s :
  first_page_only n l s → current_items s = l.
Proof.
  intros [Hpag Hpages]. unfold current_items.
  rewrite (loaded_pagination_parsed _ _ Hpag). simpl.
  unfold page_items, load_json_list.
  by rewrite Hpages, lookup_singleton_eq.
Qed.

Lemma append_to_empty_index now x s :
  fs_pagination s = None → fs_pages s = ∅ →
  first_page_only 1 [x] (gi_append_records now [x] s).
Proof.
  intros Hpag Hpages.
  destruct (gi_append_records_nonempty now [x] s) as [Hp' Hpag']; [done|].
  assert (loaded_pagination s = {| total_articles := Some 0%Z; files := [] |}) as Hl.
  { unfold loaded_pagination, gi_load_pagination. simpl. by rewrite Hpag. }
  rewrite Hl in Hp', Hpag'. simpl in Hp', Hpag'.
  rewrite (current_size_no_pages s) in Hp', Hpag' by by rewrite Hl.
  rewrite bool_decide_eq_false_2 in Hp', Hpag' by (unfold GLOBAL_PAGE_SIZE; lia).
  split.
  - by rewrite Hpag'.
  - rewrite Hp', Hpages. unfold current_items. rewrite Hl. simpl.
    by rewrite insert_empty.
Qed.

Lemma append_to_first_page now x n l s :
  first_page_only n l s → length l < GLOBAL_PAGE_SIZE →
  first_page_only (n + 1) (l ++ [x]) (gi_append_records now [x] s).
Proof.
  intros Hinv Hlen. pose proof (first_page_current_items _ _ _ Hinv) as Hitems.
  destruct Hinv as [Hpag Hpages].
  destruct (gi_append_records_nonempty now [x] s) as [Hp' Hpag']; [done|].
  rewrite (loaded_pagination_parsed _ _ Hpag) in Hp', Hpag'.
  unfold current_size in Hp', Hpag'. rewrite Hitems in Hp', Hpag'.
  rewrite bool_decide_eq_false_2 in Hp', Hpag' by lia.
  simpl in Hp', Hpag'. split.
  - by rewrite Hpag'.
  - rewrite Hp', Hpages. by rewrite insert_singleton_eq.
Qed.

Lemma append_to_full_page now x n l s :
  first_page_only n l s → GLOBAL_PAGE_SIZE ≤ length l →
  fs_pagination (gi_append_records now [x] s)
  = Some (PParsed {| total_articles := Some (n + 1)%Z;
                     files := ["index_1.json"; "index_2.json"] |}) ∧
  fs_pages (gi_append_records now [x] s) = <[ page_path "index_2.json" := JList [x] ]>
      {[ page_path "index_1.json" := JList l ]}.
Proof.
  intros Hinv Hlen. pose proof (first_page_current_items _ _ _ Hinv) as Hitems.
  destruct Hinv as [Hpag Hpages].
  destruct (gi_append_records_nonempty now [x] s) as [Hp' Hpag']; [done|].
  rewrite (loaded_pagination_parsed _ _ Hpag) in Hp', Hpag'.
  unfold current_size in Hp', Hpag'. rewrite Hitems in Hp', Hpag'.
  rewrite bool_decide_eq_true_2 in Hp', Hpag' by lia.
  simpl in Hp', Hpag'. split.
  - by rewrite Hpag'.
  - by rewrite Hp', Hpages.
Qed.

Lemma gi_append_each_snoc calls c s :
  gi_append_each (calls ++ [c]) s = gi_append_records c.1 [c.2] (gi_append_each calls s).
Proof. unfold gi_append_each. by rewrite foldl_snoc. Qed.

Lemma gi_append_each_first_page calls s :
  fs_pagination s = None → fs_pages s = ∅ →
  calls ≠ [] → length calls ≤ GLOBAL_PAGE_SIZE →
  first_page_only (Z.of_nat (length calls)) (calls.*2) (gi_append_each calls s).
Proof.
  intros Hpag Hpages. induction calls as [|c calls IH] using rev_ind; [done|].
  intros _ Hlen. rewrite length_app in Hlen. cbn [length] in Hlen.
  rewrite gi_append_each_snoc, fmap_app, length_app. cbn [length fmap list_fmap].
  destruct calls as [|c0 calls].
  - by apply append_to_empty_index.
  - replace (Z.of_nat (length (c0 :: calls) + 1)) with
      (Z.of_nat (length (c0 :: calls)) + 1)%Z by lia.
    apply append_to_first_page; [apply IH; [done|lia]|].
    rewrite length_fmap. lia.
Qed.

(** C4.  One more than the page size single-record appends to an index
    that has no descriptor and no page: two pages exist and are registered
    in order, the first holds the first [GLOBAL_PAGE_SIZE] records, the
    second the last one, and the total counts them all. *)
Theorem gi_rotation_after_full_page (calls : list (string * slim)) (s : fs) :
  fs_pagination s = None → fs_pages s = ∅ →
  length calls = GLOBAL_PAGE_SIZE + 1 →
  let s' := gi_append_each calls s in
  let pag := loaded_pagination s' in
  files pag = ["index_1.json"; "index_2.json"] ∧
  length (files pag) = 2 ∧
  total_articles pag = Some (Z.of_nat (GLOBAL_PAGE_SIZE + 1)) ∧
  size (fs_pages s') = 2 ∧
  page_items s' "index_1.json" = take GLOBAL_PAGE_SIZE (calls.*2) ∧
  length (page_items s' "index_1.json") = GLOBAL_PAGE_SIZE ∧
  page_items s' "index_2.json" = drop GLOBAL_PAGE_SIZE (calls.*2) ∧
  length (page_items s' "index_2.json") = 1.
Proof.
  intros Hpag Hpages Hlen s' pag.
  destruct calls as [|c calls _] using rev_ind;
    [unfold GLOBAL_PAGE_SIZE in Hlen; simpl in Hlen; lia|].
  rewrite length_app in Hlen. cbn [length] in Hlen.
  assert (length calls = GLOBAL_PAGE_SIZE) as Hfull by lia.
  assert (calls ≠ []) as Hne
    by (intros ->; unfold GLOBAL_PAGE_SIZE in Hfull; simpl in Hfull; lia).
  pose proof (gi_append_each_first_page calls s Hpag Hpages Hne) as Hinv.
  destruct (append_to_full_page c.1 c.2 _ _ _ (Hinv ltac:(lia))) as [Hpag' Hpages'];
    [rewrite length_fmap; lia|].
  rewrite <- gi_append_each_snoc in Hpag', Hpages'. fold s' in Hpag', Hpages'.
  assert (page_path "index_2.json" ≠ page_path "index_1.json") as Hdiff by done.
  assert (page_items s' "index_1.json" = calls.*2) as H1.
  { unfold page_items, load_json_list.
    by rewrite Hpages', lookup_insert_ne, lookup_singleton_eq. }
  assert (page_items s' "index_2.json" = [c.2]) as H2.
  { unfold page_items, load_json_list. by rewrite Hpages', lookup_insert_eq. }
  assert (length (calls.*2) = GLOBAL_PAGE_SIZE) as Hl2 by by rewrite length_fmap.
  unfold pag. rewrite (loaded_pagination_parsed _ _ Hpag').
  cbn [files total_articles]. rewrite H1, H2, fmap_app.
  cbn [fmap list_fmap length].
  split; [done|]. split; [done|]. split; [f_equal; lia|].
  split; [|split; [|split; [done|split; [|done]]]].
  - rewrite Hpages', map_size_insert_None, map_size_singleton; [done|].
    by rewrite lookup_singleton_ne.
  - by rewrite <- Hl2, take_app_length.
  - by rewrite <- Hl2, drop_app_length.
Qed.

Lemma gi_rotation_after_full_page_witness :
  let s' := gi_append_each (replicate 501 ("t", sample_slim)) empty_fs in
  files (loaded_pagination s') = ["index_1.json"; "index_2.json"] ∧
  length (page_items s' "index_1.json") = GLOBAL_PAGE_SIZE ∧
  length (page_items s' "index_2.json") = 1 ∧
  total_articles (loaded_pagination s') = Some 501%Z.
Proof.
  destruct (gi_rotation_after_full_page (replicate 501 ("t", sample_slim)) empty_fs
              eq_refl eq_refl eq_refl)
    as (Hfiles & _ & Htotal & _ & _ & Hlen1 & _ & Hlen2).
  intros s'. split; [exact Hfiles|]. split; [exact Hlen1|].
  split; [exact Hlen2|exact Htotal].
Defined.

(** ** Manifests *)

Section Dict.
Implicit Types (d : dict) (k v : string).

Lemma dict_set_keys k v d k' : k' ∈ (dict_set k v d).*1 ↔ k' = k ∨ k' ∈ d.*1.
Proof.
  induction d as [|[k0 v0] d IH]; simpl.
  - rewrite list_elem_of_singleton, elem_of_nil. tauto.
  - case_decide as Hk; simpl; rewrite !elem_of_cons.
    + subst. tauto.
    + rewrite IH. tauto.
Qed.

Lemma dict_set_NoDup k v d : NoDup d.*1 → NoDup (dict_set k v d).*1.
Proof.
  induction d as [|[k0 v0] d IH]; simpl.
  - intros _. apply NoDup_singleton.
  - rewrite NoDup_cons. intros [Hk0 Hd]. case_decide as Hk; simpl.
    + subst. by apply NoDup_cons.
    + apply NoDup_cons. split; [|by apply IH].
      rewrite dict_set_keys. intros [->|Hin]; done.
Qed.

Lemma dict_set_elem k v d k' v' :
  (k', v') ∈ dict_set k v d → (k' = k ∧ v' = v) ∨ (k', v') ∈ d.
Proof.
  induction d as [|[k0 v0] d IH]; simpl.
  - rewrite list_elem_of_singleton. intros [= -> ->]. by left.
  - case_decide as Hk; rewrite !elem_of_cons.
    + intros [[= -> ->]|Hin]; [by left|by right; right].
    + intros [Heq|Hin]; [by right; left|].
      destruct (IH Hin) as [?|?]; [by left|by right; right].
Qed.

Lemma dict_get_Some d k v : NoDup d.*1 → (k, v) ∈ d → dict_get k d = Some v.
Proof.
  induction d as [|[k0 v0] d IH]; simpl.
  - intros _ Hin. by apply elem_of_nil in Hin.
  - rewrite NoDup_cons, elem_of_cons. intros [Hk0 Hd] [[= -> ->]|Hin].
    + by rewrite decide_True.
    + rewrite decide_False; [by apply IH|].
      intros ->. apply Hk0. apply list_elem_of_fmap. by exists (k0, v).
Qed.
End Dict.

Global Instance key_ge_trans : Transitive key_ge.
Proof. intros a b c Hab Hbc. unfold key_ge in *. by etrans. Qed.

Global Instance key_ge_total : Total key_ge.
Proof. intros a b. unfold key_ge. destruct (total String.le a.1 b.1); auto. Qed.

Lemma string_le_ne_ltb (x y : string) : String.le x y → x ≠ y → String.ltb x y = true.
Proof.
  unfold String.le, String.leb, String.ltb. intros Hle Hne.
  destruct (String.compare x y) eqn:Hc; [|done|done].
  by apply String.compare_eq_iff in Hc.
Qed.

Lemma sorted_desc_strict (d : dict) :
  NoDup d.*1 →
  StronglySorted (λ a b, String.ltb b.1 a.1 = true) (sorted_desc_by_key d).
Proof.
  intros Hnd. unfold sorted_desc_by_key.
  assert (NoDup (merge_sort key_ge d).*1) as Hnd'
    by by rewrite merge_sort_Permutation.
  pose proof (StronglySorted_merge_sort key_ge d) as Hs.
  induction Hs as [|a l Hs IH Hall]; [constructor|].
  simpl in Hnd'. apply NoDup_cons in Hnd' as [Ha Hl].
  constructor; [by apply IH|].
  rewrite Forall_forall in Hall |- *. intros b Hb.
  apply string_le_ne_ltb; [by apply Hall|].
  intros Heq. apply Ha. rewrite <- Heq. by apply list_elem_of_fmap_2.
Qed.

Section MonthLoop.
Variable dir : string.

Lemma month_loop_keys l d0 k :
  k ∈ (foldl (month_loop_body dir) d0 l).*1 ↔
  k ∈ d0.*1 ∨ ∃ n, n ∈ l ∧ n ≠ MONTH_MANIFEST ∧ day_key n = k.
Proof.
  revert d0. induction l as [|n l IH]; intros d0; simpl.
  - split; [by left|]. intros [?|(n & Hn & _)]; [done|by apply elem_of_nil in Hn].
  - rewrite IH. unfold month_loop_body. case_decide as Hm.
    + split; (intros [?|(n' & Hn' & Hne & Hk)]; [by left|right]).
      * exists n'. by rewrite elem_of_cons; auto.
      * apply elem_of_cons in Hn' as [->|Hn']; [done|]. by exists n'.
    + rewrite dict_set_keys. split.
      * intros [[->|?]|(n' & Hn' & Hne & Hk)]; [right|by left|right].
        -- exists n. by rewrite elem_of_cons; auto.
        -- exists n'. by rewrite elem_of_cons; auto.
      * intros [?|(n' & Hn' & Hne & Hk)]; [by left; right|].
        apply elem_of_cons in Hn' as [->|Hn']; [by left; left|].
        right. by exists n'.
Qed.

Lemma month_loop_NoDup l d0 :
  NoDup d0.*1 → NoDup (foldl (month_loop_body dir) d0 l).*1.
Proof.
  revert d0. induction l as [|n l IH]; intros d0 Hnd; simpl; [done|].
  apply IH. unfold month_loop_body. case_decide; [done|].
  by apply dict_set_NoDup.
Qed.

Lemma month_loop_elem l d0 k v :
  (k, v) ∈ foldl (month_loop_body dir) d0 l →
  (k, v) ∈ d0 ∨
  ∃ n, n ∈ l ∧ n ≠ MONTH_MANIFEST ∧ day_key n = k ∧ v = joinpath dir n.
Proof.
  revert d0. induction l as [|n l IH]; intros d0; simpl; [by left|].
  intros Hin. destruct (IH _ Hin) as [Hd|(n' & Hn' & Hne & Hk & Hv)].
  - unfold month_loop_body in Hd. case_decide as Hm; [by left|].
    apply dict_set_elem in Hd as [[-> ->]|?]; [right|by left].
    exists n. by rewrite elem_of_cons; auto.
  - right. exists n'. by rewrite elem_of_cons; auto.
Qed.
End MonthLoop.

Lemma month_days_spec (dir : string) (listing : list string) :
  let days := month_days dir listing in
  (∀ k, k ∈ days.*1 ↔ ∃ n, is_day_file listing n ∧ day_key n = k) ∧
  NoDup days.*1 ∧
  (∀ k v, (k, v) ∈ days →
     ∃ n, is_day_file listing n ∧ day_key n = k ∧ v = joinpath dir n) ∧
  StronglySorted (λ a b, String.ltb b.1 a.1 = true) days.
Proof.
  intros days. unfold days, month_days.
  set (matches := sorted_asc _).
  assert (∀ n, n ∈ matches ↔ n ∈ listing ∧ Text.endswith ".json" n = true) as Hm.
  { intros n. unfold matches, sorted_asc.
    rewrite merge_sort_Permutation, list_elem_of_filter.
    rewrite Is_true_true. tauto. }
  assert (NoDup (foldl (month_loop_body dir) [] matches).*1) as Hnd
    by (apply month_loop_NoDup; constructor).
  split; [|split; [|split]].
  - intros k. unfold sorted_desc_by_key. rewrite merge_sort_Permutation.
    rewrite month_loop_keys. simpl. rewrite elem_of_nil. unfold is_day_file.
    split.
    + intros [[]|(n & Hn & Hne & Hk)]. exists n. apply Hm in Hn. tauto.
    + intros (n & (Hl & He & Hne) & Hk). right. exists n. rewrite Hm. tauto.
  - unfold sorted_desc_by_key. by rewrite merge_sort_Permutation.
  - intros k v. unfold sorted_desc_by_key. rewrite merge_sort_Permutation.
    intros Hin. apply month_loop_elem in Hin as [Hin|(n & Hn & Hne & Hk & Hv)].
    + by apply elem_of_nil in Hin.
    + exists n. apply Hm in Hn. unfold is_day_file. tauto.
  - by apply sorted_desc_strict.
Qed.

(** *** Names of daily files *)

Lemma append_cons (x : ascii) (a b : string) : String x a +:+ b = String x (a +:+ b).
Proof. reflexivity. Qed.

Lemma append_nil (b : string) : "" +:+ b = b.
Proof. reflexivity. Qed.

Lemma append_assoc (a b c : string) : (a +:+ b) +:+ c = a +:+ (b +:+ c).
Proof. induction a as [|x a IH]; [done|]. by rewrite !append_cons, IH. Qed.

Lemma length_append (a b : string) :
  String.length (a +:+ b) = String.length a + String.length b.
Proof. induction a as [|x a IH]; [done|]. rewrite append_cons. cbn. by rewrite IH. Qed.

Lemma substring_all (b : string) : String.substring 0 (String.length b) b = b.
Proof. induction b as [|x b IH]; [done|]. cbn. by rewrite IH. Qed.

Lemma substring_suffix (a b : string) :
  String.substring (String.length a) (String.length b) (a +:+ b) = b.
Proof.
  induction a as [|x a IH]; [apply substring_all|]. rewrite append_cons. cbn. apply IH.
Qed.

Lemma substring_prefix (a b : string) :
  String.substring 0 (String.length a) (a +:+ b) = a.
Proof.
  induction a as [|x a IH]; [by destruct b|]. rewrite append_cons. cbn. by rewrite IH.
Qed.

Lemma endswith_app (a suf : string) : Text.endswith suf (a +:+ suf) = true.
Proof.
  unfold Text.endswith. rewrite length_append.
  rewrite bool_decide_eq_true_2 by lia.
  replace (String.length a + String.length suf - String.length suf)
    with (String.length a) by lia.
  rewrite substring_suffix. simpl. apply String.eqb_refl.
Qed.

Lemma rfind_json (a : string) : Text.rfind "." (a +:+ ".json") = Some (String.length a).
Proof. induction a as [|x a IH]; [done|]. rewrite append_cons. cbn. by rewrite IH. Qed.

Lemma stem_json (a : string) : a ≠ "" → Text.stem (a +:+ ".json") = a.
Proof.
  intros Ha. unfold Text.stem. rewrite rfind_json, length_append.
  assert (0 < String.length a) by (destruct a; [done|cbn; lia]).
  rewrite !bool_decide_eq_true_2 by (cbn; lia). simpl.
  apply substring_prefix.
Qed.

Lemma split_head_app (sep : ascii) (a b : string) :
  lacks sep a = true → Text.split_head sep (a +:+ String sep b) = a.
Proof.
  induction a as [|x a IH]; rewrite ?append_cons, ?append_nil; cbn.
  - intros _. by rewrite Ascii.eqb_refl.
  - intros [Hx Ha]%andb_true_iff. apply negb_true_iff in Hx. rewrite Hx.
    by rewrite IH.
Qed.

Lemma day_key_daily_name (d m : nat) :
  lacks "-" (Text.fmt02 d) = true → day_key (daily_name d m) = Text.fmt02 d.
Proof.
  intros Hd. unfold day_key, daily_name.
  rewrite <- (append_assoc "-"), <- append_assoc.
  rewrite stem_json by (by destruct (Text.fmt02 d)).
  by apply (split_head_app "-").
Qed.

Lemma endswith_daily_name (d m : nat) : Text.endswith ".json" (daily_name d m) = true.
Proof.
  unfold daily_name. rewrite <- (append_assoc "-"), <- append_assoc.
  apply endswith_app.
Qed.

(** The days of a month, as [datetime] has them, print as two digits. *)
Lemma fmt02_days :
  Forall (λ d, lacks "-" (Text.fmt02 d) = true ∧
               String.length (Text.fmt02 d) = 2 ∧
               Forall (λ d', Text.fmt02 d = Text.fmt02 d' → d = d') (seq 1 31))
         (seq 1 31).
Proof. apply (bool_decide_unpack _). by vm_compute. Qed.

Lemma fmt02_day (d : nat) :
  1 ≤ d ≤ 31 →
  lacks "-" (Text.fmt02 d) = true ∧ String.length (Text.fmt02 d) = 2.
Proof.
  intros Hd. pose proof fmt02_days as H. rewrite Forall_forall in H.
  destruct (H d) as (? & ? & _); [apply elem_of_seq; lia|done].
Qed.

Lemma fmt02_day_inj (d d' : nat) :
  1 ≤ d ≤ 31 → 1 ≤ d' ≤ 31 → Text.fmt02 d = Text.fmt02 d' → d = d'.
Proof.
  intros Hd Hd'. pose proof fmt02_days as H. rewrite Forall_forall in H.
  destruct (H d) as (_ & _ & Hinj); [apply elem_of_seq; lia|].
  rewrite Forall_forall in Hinj. apply Hinj. apply elem_of_seq. lia.
Qed.

Lemma daily_name_not_manifest (d m : nat) :
  1 ≤ d ≤ 31 → daily_name d m ≠ MONTH_MANIFEST.
Proof.
  intros Hd Heq. destruct (fmt02_day d Hd) as [Hdash Hlen].
  pose proof (day_key_daily_name d m Hdash) as Hk. rewrite Heq in Hk.
  rewrite <- Hk in Hlen. by vm_compute in Hlen.
Qed.

(** The loop on a listing made of the daily files of the days [ds] and
    perhaps the manifest. *)
Lemma month_days_of_daily_files (y m : nat) (ds : list nat) (listing : list string) :
  (∀ d, d ∈ ds → 1 ≤ d ≤ 31) →
  (∀ n, n ∈ listing → n = MONTH_MANIFEST ∨ ∃ d, d ∈ ds ∧ n = daily_name d m) →
  (∀ d, d ∈ ds → daily_name d m ∈ listing) →
  let month_dir := month_dir_of y m in
  let days := month_days month_dir listing in
  (∀ k, k ∈ days.*1 ↔ ∃ d, d ∈ ds ∧ k = day_key (daily_name d m)) ∧
  (∀ d, d ∈ ds →
     day_key (daily_name d m) = Text.fmt02 d ∧
     dict_get (Text.fmt02 d) days = Some (joinpath month_dir (daily_name d m))) ∧
  StronglySorted (λ a b, String.ltb b.1 a.1 = true) days.
Proof.
  intros Hrange Hlisting Hpresent month_dir days.
  destruct (month_days_spec month_dir listing) as (Hkeys & Hnd & Helem & Hsorted).
  fold days in Hkeys, Hnd, Helem, Hsorted.
  assert (∀ n, is_day_file listing n ↔ ∃ d, d ∈ ds ∧ n = daily_name d m) as Hfiles.
  { intros n. unfold is_day_file. split.
    - intros (Hl & _ & Hne). destruct (Hlisting n Hl) as [?|?]; done.
    - intros (d & Hd & ->). split; [by apply Hpresent|].
      split; [apply endswith_daily_name|].
      by apply daily_name_not_manifest, Hrange. }
  split; [|split; [|done]].
  - intros k. rewrite Hkeys. split.
    + intros (n & Hn & Hk). apply Hfiles in Hn as (d & Hd & ->). eauto.
    + intros (d & Hd & ->). exists (daily_name d m). split; [|done].
      apply Hfiles. eauto.
  - intros d Hd. destruct (fmt02_day d (Hrange d Hd)) as [Hdash _].
    pose proof (day_key_daily_name d m Hdash) as Hk. split; [done|].
    assert (Text.fmt02 d ∈ days.*1) as Hin.
    { apply Hkeys. exists (daily_name d m). split; [|done]. apply Hfiles. eauto. }
    apply list_elem_of_fmap in Hin as ([k v] & Hkv & Hin). simpl in Hkv. subst k.
    apply dict_get_Some; [done|].
    destruct (Helem _ _ Hin) as (n & Hn & Hkn & ->).
    apply Hfiles in Hn as (d' & Hd' & ->).
    destruct (fmt02_day d' (Hrange d' Hd')) as [Hdash' _].
    rewrite (day_key_daily_name d' m Hdash') in Hkn.
    by rewrite (fmt02_day_inj d' d (Hrange d' Hd') (Hrange d Hd) Hkn) in Hin.
Qed.


Lemma strip_prefix_self_slash (d : string) : Text.strip_prefix (d +:+ "/") d = None.
Proof.
  induction d as [|x d IH]; [done|]. rewrite append_cons. cbn.
  by rewrite Ascii.eqb_refl.
Qed.

Lemma entry_below_self (d : string) : entry_below d d = None.
Proof. unfold entry_below. by rewrite strip_prefix_self_slash. Qed.

Lemma listdir_ensure_dir (d : string) (s : fs) (n : string) :
  n ∈ listdir (ensure_dir d s) d ↔ n ∈ listdir s d.
Proof.
  unfold listdir, data_paths. simpl.
  rewrite !elem_of_remove_dups, !list_elem_of_omap.
  split; intros (p & Hp & He); exists p; (split; [|done]);
    rewrite elem_of_app, elem_of_elements in Hp |- *.
  - destruct Hp as [Hp|Hp]; [|by right].
    apply elem_of_union in Hp as [Hp|Hp]; [|by left].
    apply elem_of_singleton in Hp as ->. by rewrite entry_below_self in He.
  - destruct Hp as [Hp|Hp]; [left|by right]. set_solver.
Qed.

(** C8.  When the month directory of [dt] holds the daily files of the days
    [ds] (and perhaps the manifest itself), [update_month_manifest] writes a
    manifest whose [days] mapping has exactly the day keys of those files as
    its keys, the key of a file being its two-digit day; each key is mapped
    to the path of that day's file; and the keys come in strictly descending
    order of their strings. *)
Theorem update_month_manifest_days (dt : date) (ds : list nat) (s : fs) :
  let m := month dt in
  let month_dir := month_dir_of (year dt) m in
  (∀ d, d ∈ ds → 1 ≤ d ≤ 31) →
  (∀ n, n ∈ listdir s month_dir →
        n = MONTH_MANIFEST ∨ ∃ d, d ∈ ds ∧ n = daily_name d m) →
  (∀ d, d ∈ ds → daily_name d m ∈ listdir s month_dir) →
  ∃ mf,
    fs_month (update_month_manifest dt s) !! joinpath month_dir MONTH_MANIFEST = Some mf ∧
    (∀ k, k ∈ (mm_days mf).*1 ↔ ∃ d, d ∈ ds ∧ k = day_key (daily_name d m)) ∧
    (∀ d, d ∈ ds →
       day_key (daily_name d m) = Text.fmt02 d ∧
       dict_get (Text.fmt02 d) (mm_days mf)
       = Some (joinpath month_dir (daily_name d m))) ∧
    StronglySorted (λ a b, String.ltb b.1 a.1 = true) (mm_days mf).
Proof.
  intros m month_dir Hrange Hlisting Hpresent.
  eexists. split.
  { unfold update_month_manifest. cbn [fs_month]. apply lookup_insert_eq. }
  cbn [mm_days]. fold m month_dir.
  apply (month_days_of_daily_files (year dt) m ds); [exact Hrange|..].
  - intros n Hn. apply Hlisting. exact (proj1 (listdir_ensure_dir _ _ _) Hn).
  - intros d Hd. apply (proj2 (listdir_ensure_dir _ _ _)). by apply Hpresent.
Qed.

Lemma update_month_manifest_days_witness :
  ∃ mf,
    fs_month (update_month_manifest sample_day state_three_days)
      !! "data/2025/05/month_manifest.json" = Some mf ∧
    (∀ k, k ∈ (mm_days mf).*1 ↔ ∃ d, d ∈ [7; 31; 1] ∧ k = day_key (daily_name d 5)) ∧
    (∀ d, d ∈ [7; 31; 1] →
       day_key (daily_name d 5) = Text.fmt02 d ∧
       dict_get (Text.fmt02 d) (mm_days mf)
       = Some (joinpath "data/2025/05" (daily_name d 5))) ∧
    StronglySorted (λ a b, String.ltb b.1 a.1 = true) (mm_days mf).
Proof.
  apply (update_month_manifest_days sample_day [7; 31; 1] state_three_days).
  - intros d Hd. repeat (apply elem_of_cons in Hd as [->|Hd]; [lia|]).
    by apply elem_of_nil in Hd.
  - intros n Hn.
    match type of Hn with
    | _ ∈ ?l => let l' := eval vm_compute in l in change l with l' in Hn
    end.
    repeat (apply elem_of_cons in Hn as [->|Hn];
            [first [ by left
                   | right; exists 7; split; [set_solver|reflexivity]
                   | right; exists 31; split; [set_solver|reflexivity]
                   | right; exists 1; split; [set_solver|reflexivity] ]|]).
    by apply elem_of_nil in Hn.
  - intros d Hd.
    repeat (apply elem_of_cons in Hd as [->|Hd]; [vm_compute; set_solver|]).
    by apply elem_of_nil in Hd.
Defined.

(** ** Markers *)

Lemma lstrip_length (s : string) : String.length (Text.lstrip s) ≤ String.length s.
Proof.
  induction s as [|c s IH]; [done|]. cbn. destruct (Text.isspace c); cbn; lia.
Qed.

Lemma lstrip_fixed_head (c : ascii) (s : string) :
  Text.lstrip (String c s) = String c s → Text.isspace c = false.
Proof.
  cbn. destruct (Text.isspace c); [|done]. intros Heq.
  pose proof (lstrip_length s) as Hlen. rewrite Heq in Hlen. cbn in Hlen. lia.
Qed.

Lemma lstrip_head (s : string) :
  Text.lstrip s = "" ∨ ∃ c r, Text.lstrip s = String c r ∧ Text.isspace c = false.
Proof.
  induction s as [|c s IH]; [by left|]. cbn.
  destruct (Text.isspace c) eqn:Hc; [done|]. right. eauto.
Qed.

Lemma rstrip_cons (c : ascii) (s : string) :
  Text.rstrip (String c s) = "" ∨ ∃ r, Text.rstrip (String c s) = String c r.
Proof.
  cbn. destruct (Text.rstrip s); [|by eauto].
  destruct (Text.isspace c); [by left|by eauto].
Qed.

Lemma rstrip_rstrip (s : string) : Text.rstrip (Text.rstrip s) = Text.rstrip s.
Proof.
  induction s as [|c s IH]; [done|]. cbn.
  destruct (Text.rstrip s) as [|x r] eqn:Hr.
  - destruct (Text.isspace c) eqn:Hc; [done|]. cbn. by rewrite Hc.
  - cbn [Text.rstrip]. cbn [Text.rstrip] in IH. by rewrite IH.
Qed.

Lemma strip_trimmed (s : string) : trimmed (Text.strip s).
Proof.
  unfold trimmed, Text.strip. split; [|apply rstrip_rstrip].
  destruct (lstrip_head s) as [->|(c & r & -> & Hc)]; [done|].
  destruct (rstrip_cons c r) as [->|[r' ->]]; [done|]. cbn. by rewrite Hc.
Qed.

Lemma strip_of_trimmed (x : string) : trimmed x → Text.strip x = x.
Proof. intros [Hl Hr]. unfold Text.strip. by rewrite Hl. Qed.

Lemma rstrip_app_keep (x y : string) :
  Text.rstrip y ≠ "" → Text.rstrip (x +:+ y) = x +:+ Text.rstrip y.
Proof.
  intros Hy. induction x as [|c x IH]; [done|].
  rewrite !append_cons. cbn [Text.rstrip]. rewrite IH.
  destruct (x +:+ Text.rstrip y) eqn:Hxy; [|done].
  destruct x; [by rewrite append_nil in Hxy|by rewrite append_cons in Hxy].
Qed.

Lemma rstrip_app_blank (x y : string) :
  Text.rstrip y = "" → Text.rstrip (x +:+ y) = Text.rstrip x.
Proof.
  intros Hy. induction x as [|c x IH]; [done|].
  rewrite append_cons. cbn [Text.rstrip]. by rewrite IH.
Qed.

Lemma lstrip_app (x y : string) :
  Text.lstrip x = x → x ≠ "" → Text.lstrip (x +:+ y) = x +:+ y.
Proof.
  destruct x as [|c x]; [done|]. intros Hx%lstrip_fixed_head _.
  rewrite append_cons. cbn. by rewrite Hx.
Qed.

Lemma bar_trimmed (a b : string) :
  trimmed a → trimmed b → trimmed (a +:+ "|" +:+ b) ∧ a +:+ "|" +:+ b ≠ "".
Proof.
  intros [Hal Har] [Hbl Hbr].
  assert (Text.rstrip ("|" +:+ b) = "|" +:+ b) as Hbar.
  { change ("|" +:+ b) with (String "|" b). cbn [Text.rstrip]. rewrite Hbr.
    by destruct b. }
  split; [split|].
  - destruct a as [|c a]; [done|]. by apply lstrip_app.
  - rewrite rstrip_app_keep; rewrite Hbar; done.
  - by destruct a.
Qed.

Lemma identity_trimmed (e : entry) :
  trimmed (get_entry_identity e) ∧ get_entry_identity e ≠ "".
Proof. apply bar_trimmed; apply strip_trimmed. Qed.

(** What is read back from a marker file after the identity of an entry was
    written to it. *)
Lemma marker_roundtrip (e : entry) :
  read_text_file (write_text_file (Some (get_entry_identity e)))
  = Some (get_entry_identity e).
Proof.
  destruct (identity_trimmed e) as [Htrim Hne].
  unfold read_text_file, write_text_file. simpl.
  rewrite (strip_of_trimmed _ Htrim). unfold Text.strip.
  rewrite lstrip_app by (done || apply Htrim).
  rewrite rstrip_app_blank by done. rewrite (proj2 Htrim).
  by destruct (get_entry_identity e).
Qed.

(** When the notification returns, the news part of a run ends with the
    marker holding the identity of the latest item, whether it was skipped,
    found in today's file or newly stored. *)
Lemma run_news_marker (w : world) (s : fs) (latest : entry) (rest : list entry) :
  w_news_entries w = latest :: rest →
  send_crunchyroll_one w latest = true →
  ∃ s', run_news w s = Returned s' ∧
        read_text_file (fs_news_marker s') = Some (get_entry_identity latest).
Proof.
  intros Hfeed Hsend. unfold run_news. rewrite Hfeed.
  destruct (Text.truthy _ && bool_decide _) eqn:Hskip.
  - apply andb_true_iff in Hskip as [_ Heq%bool_decide_eq_true_1]. eauto.
  - destruct (save_single_news _ latest s) as [[[rec|] day_path] s1].
    + rewrite Hsend. eexists. split; [done|]. apply marker_roundtrip.
    + eexists. split; [done|]. apply marker_roundtrip.
Qed.

(** A duplicate in today's file sets the marker whatever the sends do. *)
Lemma run_news_duplicate_marker (w : world) (s : fs) (latest : entry) (rest : list entry) :
  w_news_entries w = latest :: rest →
  (∃ x, x ∈ day_sequence (w_today_save w) s ∧ record_key x = get_entry_identity latest) →
  ∃ s', run_news w s = Returned s' ∧
        read_text_file (fs_news_marker s') = Some (get_entry_identity latest).
Proof.
  intros Hfeed Hdup. unfold run_news. rewrite Hfeed.
  destruct (Text.truthy _ && bool_decide _) eqn:Hskip.
  - apply andb_true_iff in Hskip as [_ Heq%bool_decide_eq_true_1]. eauto.
  - rewrite (save_single_news_dup _ _ _ Hdup).
    eexists. split; [done|]. apply marker_roundtrip.
Qed.

(** A newly stored item whose notification raises leaves the marker as it
    was: the run ends by the exception, after the daily file was written. *)
Lemma run_news_raise_keeps_marker (w : world) (s : fs) (latest : entry) (rest : list entry) :
  w_news_entries w = latest :: rest →
  read_text_file (fs_news_marker s) ≠ Some (get_entry_identity latest) →
  (∀ x, x ∈ day_sequence (w_today_save w) s → record_key x ≠ get_entry_identity latest) →
  send_crunchyroll_one w latest = false →
  ∃ s', run_news w s = Raised s' ∧
        fs_news_marker s' = fs_news_marker s ∧
        day_sequence (w_today_save w) s'
        = day_sequence (w_today_save w) s ++ [build_daily_record latest].
Proof.
  intros Hfeed Hmark Hnew Hsend. unfold run_news. rewrite Hfeed.
  destruct (Text.truthy _ && bool_decide _) eqn:Hskip.
  - apply andb_true_iff in Hskip as [_ Heq%bool_decide_eq_true_1]. by destruct Hmark.
  - rewrite (save_single_news_new _ _ _ Hnew). rewrite Hsend.
    eexists. split; [done|]. split; [done|].
    apply (day_sequence_saved (w_today_save w) _ (daily_path (w_today_save w) s).2).
Qed.

(** A second run over an unchanged news feed writes nothing. *)
Lemma run_news_again (w : world) (s s' : fs) :
  w_news_entries w ≠ [] →
  (∀ latest, head (w_news_entries w) = Some latest →
             send_crunchyroll_one w latest = true) →
  run_news w s = Returned s' →
  run_news w s' = Returned s'.
Proof.
  intros Hfeed Hsend Hrun.
  destruct (w_news_entries w) as [|latest rest] eqn:He; [done|].
  destruct (run_news_marker w s latest rest He (Hsend latest eq_refl))
    as (s1 & Hrun1 & Hmark).
  rewrite Hrun in Hrun1. injection Hrun1 as <-.
  by apply (run_news_skip w s' latest rest).
Qed.

(** ** The reference of a slim record *)

Lemma gi_append_records_daily now (b : list slim) (s : fs) :
  fs_daily (gi_append_records now b s) = fs_daily s.
Proof.
  unfold gi_append_records, gi_load_pagination.
  destruct b as [|r b]; [done|].
  destruct (fs_pagination (ensure_dir GLOBAL_INDEX s)) as [[|[t [|f fl]]]|];
    simpl; by case_bool_decide.
Qed.

Lemma day_sequence_ext today s s' :
  fs_daily s = fs_daily s' → day_sequence today s = day_sequence today s'.
Proof. intros Heq. unfold day_sequence. simpl. by rewrite Heq. Qed.

Lemma loaded_pagination_set_news_marker s c :
  loaded_pagination (set_news_marker s c) = loaded_pagination s.
Proof.
  unfold loaded_pagination, gi_load_pagination. simpl.
  by destruct (fs_pagination s) as [[|]|].
Qed.

(** A newly stored record goes to the end of the day's sequence, at the
    index that is the number of records the day held, and the slim record
    that closes the last index page refers to index 0 of the daily file. *)
Lemma run_news_reference (w : world) (s : fs) (latest : entry) (rest : list entry) :
  w_news_entries w = latest :: rest →
  read_text_file (fs_news_marker s) ≠ Some (get_entry_identity latest) →
  (∀ x, x ∈ day_sequence (w_today_save w) s → record_key x ≠ get_entry_identity latest) →
  send_crunchyroll_one w latest = true →
  ∃ s' cur kept,
    run_news w s = Returned s' ∧
    day_sequence (w_today_save w) s' !! length (day_sequence (w_today_save w) s)
    = Some (build_daily_record latest) ∧
    last (files (loaded_pagination s')) = Some cur ∧
    slim_path <$> page_items s' cur
    = (slim_path <$> kept) ++ [Some ((daily_path (w_today_save w) s).1 +:+ "#0")].
Proof.
  intros Hfeed Hmark Hnew Hsend. unfold run_news. rewrite Hfeed.
  destruct (Text.truthy _ && bool_decide _) eqn:Hskip.
  { apply andb_true_iff in Hskip as [_ Heq%bool_decide_eq_true_1]. by destruct Hmark. }
  rewrite (save_single_news_new _ _ _ Hnew). rewrite Hsend.
  set (today := w_today_save w).
  set (s1 := save_daily_list _ _ _).
  set (s2 := update_year_manifest _ (update_month_manifest _ s1)).
  set (slims := convert_full_to_slim _ _).
  assert (slims ≠ []) as Hne by done.
  destruct (gi_append_records_pages (w_now w) slims s2 Hne)
    as (cur & Hlast & _ & Hpages & _).
  eexists _, cur, _. split; [done|].
  rewrite loaded_pagination_set_news_marker.
  split; [|split; [exact Hlast|]].
  - assert (day_sequence today s1
            = day_sequence today s ++ [build_daily_record latest]) as Hseq
      by apply (day_sequence_saved today _ (daily_path today s).2).
    match goal with
    | |- day_sequence today ?t !! _ = _ => rewrite (day_sequence_ext today t s1)
    end.
    + by rewrite Hseq, lookup_app_r, Nat.sub_diag.
    + cbn [fs_daily set_news_marker]. by rewrite gi_append_records_daily.
  - unfold page_items, load_json_list. cbn [fs_pages set_news_marker].
    rewrite Hpages, lookup_insert_eq, fmap_app. done.
Qed.

(** ** The dedup key and the pair it is made of *)

Lemma bar_key_inj (a b a' b' : string) :
  lacks "|" a = true → lacks "|" a' = true →
  a +:+ "|" +:+ b = a' +:+ "|" +:+ b' → a = a' ∧ b = b'.
Proof.
  intros Ha Ha' Heq.
  assert (a = a') as <-.
  { rewrite <- (split_head_app "|" a b Ha), <- (split_head_app "|" a' b' Ha').
    by f_equal. }
  split; [done|]. apply (inj (String.app a)) in Heq. by injection Heq.
Qed.

(** As long as the trimmed titles hold no bar, two records have the same
    key exactly when their trimmed titles and their trimmed images agree. *)
Lemma record_key_pair (x : record) (e : entry) :
  lacks "|" (Text.strip (Text.or_empty (title x))) = true →
  lacks "|" (Text.strip (Text.or_empty (entry_title e))) = true →
  record_key x = get_entry_identity e ↔
  Text.strip (Text.or_empty (title x)) = Text.strip (Text.or_empty (entry_title e)) ∧
  Text.strip (Text.or_empty (image x)) = Text.strip (Text.or_empty (entry_image e)).
Proof.
  intros Hx He. unfold record_key, get_entry_identity. split.
  - by apply bar_key_inj.
  - by intros [-> ->].
Qed.

(** ** The invariant of a daily file *)

Lemma copies_cons k x l :
  copies k (x :: l) = (if decide (record_key x = k) then 1 else 0) + copies k l.
Proof. unfold copies. rewrite filter_cons. by case_decide. Qed.

(** A day whose keys are pairwise distinct holds at most one copy of each. *)
Lemma copies_NoDup k l : NoDup (record_key <$> l) → copies k l ≤ 1.
Proof.
  induction l as [|x l IH]; [unfold copies; simpl; lia|].
  rewrite fmap_cons, NoDup_cons, copies_cons. intros [Hx Hl].
  case_decide as Hk; [|by apply IH].
  destruct (copies k l) eqn:Hc; [lia|]. exfalso.
  assert (0 < copies k l) as Hpos by lia.
  apply copies_pos in Hpos as (y & Hy & Hky).
  apply Hx. rewrite Hk, <- Hky. by apply list_elem_of_fmap_2.
Qed.

(** [save_single_news] keeps the keys of the day pairwise distinct, and an
    absent or unreadable file has none. *)
Lemma save_single_news_keeps_unique today e s :
  NoDup (record_key <$> day_sequence today s) →
  NoDup (record_key <$> day_sequence today (save_single_news today e s).2).
Proof.
  intros Hnd. destruct (day_sequence_dec today e s) as [Hdup|Hnew].
  - by rewrite (save_single_news_dup today e s Hdup).
  - rewrite (save_single_news_new today e s Hnew). cbn [snd].
    rewrite (day_sequence_saved today _ (daily_path today s).2).
    rewrite fmap_app. apply NoDup_app. split; [done|]. split.
    + intros k Hk Hin. apply list_elem_of_singleton in Hin.
      apply list_elem_of_fmap in Hk as (x & -> & Hx).
      apply (Hnew x Hx). by rewrite Hin, key_of_built_record.
    + apply NoDup_singleton.
Qed.

(** * Further properties of the code *)

(** ** Marker files *)

Lemma strip_strip (x : string) : Text.strip (Text.strip x) = Text.strip x.
Proof. apply strip_of_trimmed, strip_trimmed. Qed.



Lemma read_text_file_Some c v :
  read_text_file c = Some v → v ≠ "" ∧ ∃ raw, c = Some raw ∧ v = Text.strip raw.
Proof.
  destruct c as [raw|]; [|done]. simpl.
  destruct (Text.strip raw) eqn:Hs; [done|]. intros [= <-]. split; [done|].
  by exists raw.
Qed.





(** ** The video source *)

Lemma set_yt_marker_twice s a b :
  set_yt_marker (set_yt_marker s a) b = set_yt_marker s b.
Proof. reflexivity. Qed.

Lemma set_yt_marker_same s : set_yt_marker s (fs_yt_marker s) = s.
Proof. by destruct s. Qed.

Lemma send_youtube_cases w s :
  send_youtube_latest_if_new w s = s ∨
  ∃ e rest, w_yt_entries w = e :: rest ∧ w_yt_send_ok w = true ∧
            send_youtube_latest_if_new w s
            = set_yt_marker s (write_text_file (Some (yt_identity e))).
Proof.
  unfold send_youtube_latest_if_new. destruct (w_yt_entries w) as [|e rest]; [by left|].
  destruct (_ && _); [by left|]. destruct (w_yt_send_ok w); [|by left].
  right. by exists e, rest.
Qed.

(** X3.  [send_youtube_latest_if_new] changes no file but the video marker,
    and it changes nothing at all when the feed has no entry or when the
    send raises. *)
Theorem send_youtube_writes_only_marker (w : world) (s : fs) :
  let s' := send_youtube_latest_if_new w s in
  s' = set_yt_marker s (fs_yt_marker s') ∧
  (w_yt_entries w = [] ∨ w_yt_send_ok w = false → s' = s).
Proof.
  intros s'. split.
  - destruct (send_youtube_cases w s) as [Heq|(e & rest & _ & _ & Heq)];
      fold s' in Heq; rewrite Heq; [by rewrite set_yt_marker_same|done].
  - intros Hno. destruct (send_youtube_cases w s) as [Heq|(e & rest & He & Hok & _)];
      [done|]. destruct Hno as [Hno|Hno]; congruence.
Qed.

Lemma send_youtube_writes_only_marker_witness :
  send_youtube_latest_if_new (world_video false) state_after_a = state_after_a.
Proof.
  apply (proj2 (send_youtube_writes_only_marker (world_video false) state_after_a)).
  by right.
Defined.



(** X5.  A latest video whose id is empty, or has whitespace at either end,
    is never skipped: every call sends again, and writes the marker again
    when the send returns. *)
Theorem send_youtube_malformed_id (w : world) (s : fs) (e : yt_entry) (rest : list yt_entry) :
  w_yt_entries w = e :: rest →
  yt_identity e = "" ∨ Text.strip (yt_identity e) ≠ yt_identity e →
  send_youtube_latest_if_new w s
  = if w_yt_send_ok w
    then set_yt_marker s (write_text_file (Some (yt_identity e)))
    else s.
Proof.
  intros He Hbad. unfold send_youtube_latest_if_new. rewrite He.
  destruct (_ && _) eqn:Hskip; [exfalso|done].
  apply andb_true_iff in Hskip as [[_ Hvid]%andb_true_iff Heq%bool_decide_eq_true_1].
  destruct Hbad as [Hbad|Hbad]; [by rewrite Hbad in Hvid|].
  symmetry in Heq. destruct (read_text_file_Some _ _ Heq) as (_ & raw & _ & Hv).
  apply Hbad. by rewrite Hv, strip_strip.
Qed.

Lemma send_youtube_malformed_id_witness :
  let w := World true [] [YtEntry None None] sample_day sample_day "t" true true true in
  send_youtube_latest_if_new w (send_youtube_latest_if_new w empty_fs)
  = set_yt_marker (send_youtube_latest_if_new w empty_fs) (write_text_file (Some "")).
Proof.
  intros w.
  apply (send_youtube_malformed_id w (send_youtube_latest_if_new w empty_fs)
           (YtEntry None None) [] eq_refl).
  by left.
Defined.

Lemma send_youtube_twice w s :
  send_youtube_latest_if_new w (send_youtube_latest_if_new w s)
  = send_youtube_latest_if_new w s.
Proof.
  destruct (send_youtube_cases w s) as [Heq|(e & rest & He & Hok & Heq)].
  - by rewrite !Heq.
  - rewrite Heq.
    destruct (send_youtube_cases w (set_yt_marker s (write_text_file (Some (yt_identity e)))))
      as [Heq'|(e' & rest' & He' & _ & Heq')]; [done|].
    rewrite Heq'. rewrite He in He'. injection He' as <- <-. done.
Qed.

(** ** The run *)

Lemma run_news_returned_marker w s s1 latest rest :
  w_news_entries w = latest :: rest →
  run_news w s = Returned s1 →
  read_text_file (fs_news_marker s1) = Some (get_entry_identity latest).
Proof.
  intros Hfeed. unfold run_news. rewrite Hfeed.
  destruct (Text.truthy _ && bool_decide _) eqn:Hskip.
  - apply andb_true_iff in Hskip as [_ Heq%bool_decide_eq_true_1].
    by intros [= <-].
  - destruct (save_single_news _ latest s) as [[[rec|] day_path] s0].
    + destruct (send_crunchyroll_one w latest); [|done].
      intros [= <-]. apply marker_roundtrip.
    + intros [= <-]. apply marker_roundtrip.
Qed.

Lemma send_youtube_news_marker w s :
  fs_news_marker (send_youtube_latest_if_new w s) = fs_news_marker s.
Proof.
  destruct (send_youtube_cases w s) as [->|(e & rest & _ & _ & ->)]; done.
Qed.

(** X6.  A run without its Telegram configuration, and a run in which both
    feeds are empty, end normally and leave every file as it was. *)
Theorem run_nothing_to_do (w : world) (s : fs) :
  w_configured w = false ∨ (w_news_entries w = [] ∧ w_yt_entries w = []) →
  run w s = Returned s.
Proof.
  intros [Hc|[Hn Hy]]; unfold run.
  - by rewrite Hc.
  - destruct (w_configured w); [|done]. simpl.
    unfold run_news, send_youtube_latest_if_new. by rewrite Hn, Hy.
Qed.

Lemma run_nothing_to_do_witness :
  run (World false [sample_entry_a] [sample_video] sample_day sample_day "t" true true true)
      empty_fs
  = Returned empty_fs.
Proof. apply run_nothing_to_do. by left. Defined.

(** X7.  A run that ended normally has reached a fixed point: a second run
    that observes the same feeds, clock and send outcomes leaves every file
    exactly as the first run left it. *)
Theorem run_twice (w : world) (s s' : fs) :
  run w s = Returned s' → run w s' = Returned s'.
Proof.
  unfold run. destruct (w_configured w); simpl; [|by intros [= <-]].
  destruct (run_news w s) as [s1|s1] eqn:Hnews; [|done]. intros [= <-].
  assert (run_news w (send_youtube_latest_if_new w s1)
          = Returned (send_youtube_latest_if_new w s1)) as ->.
  { destruct (w_news_entries w) as [|latest rest] eqn:Hfeed.
    - unfold run_news. by rewrite Hfeed.
    - apply (run_news_skip _ _ latest rest Hfeed).
      rewrite send_youtube_news_marker.
      by apply (run_news_returned_marker w s s1 latest rest). }
  by rewrite send_youtube_twice.
Qed.

Lemma run_twice_witness :
  run world_b (final (run world_b state_after_a)) = Returned (final (run world_b state_after_a)).
Proof. apply (run_twice world_b state_after_a). by vm_compute. Defined.

Lemma run_news_not_skipped w s latest rest :
  w_news_entries w = latest :: rest →
  read_text_file (fs_news_marker s) ≠ Some (get_entry_identity latest) →
  run_news w s =
    let '(rec, day_path, s) := save_single_news (w_today_save w) latest s in
    match rec with
    | Some rec =>
        if send_crunchyroll_one w latest then
          Returned (set_news_marker
            (gi_append_records (w_now w) (convert_full_to_slim [rec] (Some day_path))
               (update_year_manifest (w_today_manifest w)
                  (update_month_manifest (w_today_manifest w) s)))
            (write_text_file (Some (get_entry_identity latest))))
        else Raised s
    | None => Returned (set_news_marker s (write_text_file (Some (get_entry_identity latest))))
    end.
Proof.
  intros Hfeed Hmark. unfold run_news. rewrite Hfeed.
  destruct (Text.truthy _ && bool_decide _) eqn:Hskip; [|done].
  apply andb_true_iff in Hskip as [_ Heq%bool_decide_eq_true_1]. by destruct Hmark.
Qed.

Lemma run_news_new w s latest rest :
  w_news_entries w = latest :: rest →
  read_text_file (fs_news_marker s) ≠ Some (get_entry_identity latest) →
  (∀ x, x ∈ day_sequence (w_today_save w) s → record_key x ≠ get_entry_identity latest) →
  let today := w_today_save w in
  let s1 := save_daily_list (daily_path today s).1
              (day_sequence today s ++ [build_daily_record latest]) (daily_path today s).2 in
  run_news w s =
    if send_crunchyroll_one w latest then
      Returned (set_news_marker
        (gi_append_records (w_now w)
           (convert_full_to_slim [build_daily_record latest] (Some (daily_path today s).1))
           (update_year_manifest (w_today_manifest w)
              (update_month_manifest (w_today_manifest w) s1)))
        (write_text_file (Some (get_entry_identity latest))))
    else Raised s1.
Proof.
  intros Hfeed Hmark Hnew today s1.
  rewrite (run_news_not_skipped w s latest rest Hfeed Hmark).
  by rewrite (save_single_news_new _ _ _ Hnew).
Qed.

Lemma day_sequence_after_indexing today dt s now b c :
  day_sequence today
    (set_news_marker
       (gi_append_records now b (update_year_manifest dt (update_month_manifest dt s))) c)
  = day_sequence today s.
Proof.
  apply day_sequence_ext. cbn [fs_daily set_news_marker].
  rewrite gi_append_records_daily. reflexivity.
Qed.

Lemma run_news_day_sequence w s latest rest :
  w_news_entries w = latest :: rest →
  read_text_file (fs_news_marker s) ≠ Some (get_entry_identity latest) →
  day_sequence (w_today_save w) (final (run_news w s))
  = day_sequence (w_today_save w) s ++
    (if decide (get_entry_identity latest ∈
                (list_to_set (record_key <$> day_sequence (w_today_save w) s) : gset string))
     then [] else [build_daily_record latest]).
Proof.
  intros Hfeed Hmark. set (today := w_today_save w).
  pose proof (day_sequence_saved today
    (day_sequence today s ++ [build_daily_record latest]) (daily_path today s).2) as Hseq.
  destruct (decide (_ ∈ _)) as [Hin|Hin].
  - apply elem_of_existing_fp in Hin.
    rewrite (run_news_not_skipped w s latest rest Hfeed Hmark).
    rewrite (save_single_news_dup (w_today_save w) latest s Hin). rewrite app_nil_r.
    apply day_sequence_ext. reflexivity.
  - assert (∀ x, x ∈ day_sequence today s → record_key x ≠ get_entry_identity latest)
      as Hnew.
    { intros x Hx Hk. apply Hin, elem_of_existing_fp. eauto. }
    rewrite (run_news_new w s latest rest Hfeed Hmark Hnew).
    destruct (send_crunchyroll_one w latest); cbn [final]; [|exact Hseq].
    rewrite day_sequence_after_indexing. exact Hseq.
Qed.

(** X8.  Whenever the news part of a run does not skip the latest item, the
    run ends, by returning or by an exception of the send, with a record
    of that item's key in today's file, and with every record the file held
    before still in place in front of it: the item is stored before the
    marker can change, and no send outcome undoes it. *)
Theorem run_news_stores_first (w : world) (s : fs) (latest : entry) (rest : list entry) :
  w_news_entries w = latest :: rest →
  read_text_file (fs_news_marker s) ≠ Some (get_entry_identity latest) →
  let s' := final (run_news w s) in
  (∃ x, x ∈ day_sequence (w_today_save w) s' ∧
        record_key x = get_entry_identity latest) ∧
  (∃ added, day_sequence (w_today_save w) s'
            = day_sequence (w_today_save w) s ++ added ∧ length added ≤ 1).
Proof.
  intros Hfeed Hmark s'. unfold s'.
  rewrite (run_news_day_sequence w s latest rest Hfeed Hmark).
  case_decide as Hin.
  - split; [|by exists []; simpl; split; [|lia]].
    apply elem_of_existing_fp in Hin as (x & Hx & Hk). exists x.
    by rewrite app_nil_r.
  - split; [|by eexists; split; [done|simpl; lia]].
    exists (build_daily_record latest). split; [|apply key_of_built_record].
    apply elem_of_app. right. by apply list_elem_of_singleton.
Qed.

Lemma run_news_stores_first_witness :
  ∃ x, x ∈ day_sequence sample_day (final (run_news world_message_fails empty_fs)) ∧
       record_key x = "B|".
Proof.
  apply (run_news_stores_first world_message_fails empty_fs sample_entry_b []);
    [reflexivity|by vm_compute].
Defined.

(** ** Names of index pages and references *)

Lemma append_eq_len (a b c d : string) :
  String.length a = String.length b → a +:+ c = b +:+ d → a = b ∧ c = d.
Proof.
  revert b. induction a as [|x a IH]; intros [|y b] Hlen Heq; try done.
  rewrite !append_cons in Heq. injection Heq as -> Heq.
  destruct (IH b) as [-> ->]; [by injection Hlen|done|done].
Qed.

Lemma append_cancel_r (a b c : string) : a +:+ c = b +:+ c → a = b.
Proof.
  intros Heq. apply (append_eq_len a b c c); [|done].
  apply (f_equal String.length) in Heq. rewrite !length_append in Heq. lia.
Qed.

Global Instance index_name_inj : Inj (=) (=) index_name.
Proof.
  intros n m Heq. unfold index_name in Heq.
  apply (inj (String.app "index_")) in Heq.
  apply append_cancel_r in Heq. by apply (inj pretty).
Qed.

Global Instance page_path_inj : Inj (=) (=) page_path.
Proof.
  intros a b Heq. unfold page_path, joinpath in Heq.
  apply (inj (String.app GLOBAL_INDEX)) in Heq.
  by apply (inj (String.app "/")) in Heq.
Qed.

Lemma convert_full_to_slim_lookup rs p i :
  p ≠ "" →
  convert_full_to_slim rs (Some p) !! i
  = (λ r, Slim (title r) (image r) (default [] (categories r))
               (Some (p +:+ "#" +:+ pretty i))) <$> rs !! i.
Proof.
  intros Hp. unfold convert_full_to_slim. rewrite list_lookup_imap.
  by destruct p.
Qed.

(** X9.  [convert_full_to_slim] gives one slim record per record, in order;
    with a source path, the record at index [i] gets the reference
    [path#i], so the references are pairwise distinct; without one (absent
    or empty) no slim record has a reference. *)
Theorem convert_full_to_slim_refs (rs : list record) (source_path : option string) :
  length (convert_full_to_slim rs source_path) = length rs ∧
  (Text.truthy source_path = false →
   ∀ sl, sl ∈ convert_full_to_slim rs source_path → slim_path sl = None) ∧
  (∀ p, source_path = Some p → p ≠ "" →
     (∀ i r, rs !! i = Some r →
        convert_full_to_slim rs source_path !! i
        = Some (Slim (title r) (image r) (default [] (categories r))
                     (Some (p +:+ "#" +:+ pretty i)))) ∧
     NoDup (slim_path <$> convert_full_to_slim rs source_path)).
Proof.
  split; [apply length_imap|]. split.
  - intros Hsp sl Hin. apply list_elem_of_lookup in Hin as [i Hi].
    unfold convert_full_to_slim in Hi. rewrite list_lookup_imap in Hi.
    destruct (rs !! i); [|done]. injection Hi as <-. simpl. by rewrite Hsp.
  - intros p -> Hp. split.
    + intros i r Hr. by rewrite convert_full_to_slim_lookup, Hr.
    + apply NoDup_alt. intros i j x.
      rewrite !list_lookup_fmap, !convert_full_to_slim_lookup by done.
      destruct (rs !! i); [|done]. destruct (rs !! j); [|done]. simpl.
      intros [= <-] [= Heq]. apply (inj (String.app p)) in Heq.
      apply (inj (String.app "#")) in Heq. by apply (inj pretty) in Heq.
Qed.

Lemma convert_full_to_slim_refs_witness :
  NoDup (slim_path <$>
         convert_full_to_slim
           [build_daily_record sample_entry_a; build_daily_record sample_entry_b]
           (Some "data/2025/05/07-05.json")).
Proof.
  apply (proj2 (proj2 (convert_full_to_slim_refs
           [build_daily_record sample_entry_a; build_daily_record sample_entry_b]
           (Some "data/2025/05/07-05.json"))) "data/2025/05/07-05.json"); done.
Defined.

(** ** Accounting of the global index *)

Lemma gi_append_records_stats now (b : list slim) (s : fs) :
  b ≠ [] →
  fs_stats (gi_append_records now b s)
  = Some {| stats_total_articles :=
              (default 0 (total_articles (loaded_pagination s)) + Z.of_nat (length b))%Z;
            stats_added_today := length b;
            stats_last_update := now |}.
Proof.
  intros Hb. destruct b as [|r b]; [done|]. clear Hb.
  unfold loaded_pagination, gi_append_records, gi_load_pagination.
  destruct (fs_pagination (ensure_dir GLOBAL_INDEX s)) as [[|[t [|f fl]]]|];
    simpl; by case_bool_decide.
Qed.

Lemma gi_append_records_frame now (b : list slim) (s : fs) :
  fs_daily (gi_append_records now b s) = fs_daily s ∧
  fs_month (gi_append_records now b s) = fs_month s ∧
  fs_year (gi_append_records now b s) = fs_year s ∧
  fs_news_marker (gi_append_records now b s) = fs_news_marker s ∧
  fs_yt_marker (gi_append_records now b s) = fs_yt_marker s.
Proof.
  unfold gi_append_records, gi_load_pagination. destruct b as [|r b]; [done|].
  destruct (fs_pagination (ensure_dir GLOBAL_INDEX s)) as [[|[t [|f fl]]]|];
    simpl; by case_bool_decide.
Qed.

(** X10.  A non-empty batch adds its length to the total of the descriptor,
    an absent, unparseable or [null] total counting as zero, and the stats
    file is rewritten with that total, the length of the batch and the
    timestamp of the call. *)
Theorem gi_append_accounting (now : string) (b : list slim) (s : fs) :
  b ≠ [] →
  let s' := gi_append_records now b s in
  let before := default 0%Z (total_articles (loaded_pagination s)) in
  total_articles (loaded_pagination s') = Some (before + Z.of_nat (length b))%Z ∧
  fs_stats s' = Some (Stats (before + Z.of_nat (length b)) (length b) now) ∧
  (fs_pagination s = None ∨ fs_pagination s = Some PUnparseable → before = 0%Z).
Proof.
  intros Hb s' before.
  destruct (gi_append_records_pages now b s Hb) as (_ & _ & _ & _ & Htotal).
  split; [exact Htotal|]. split; [by apply gi_append_records_stats|].
  unfold before, loaded_pagination, gi_load_pagination. simpl.
  by intros [-> | ->].
Qed.

Lemma gi_append_accounting_witness :
  total_articles (loaded_pagination (gi_append_records "t" [sample_slim] state_499))
  = Some 500%Z.
Proof.
  apply (gi_append_accounting "t" [sample_slim] state_499). done.
Defined.

(** X11.  [gi_append_records] writes inside the global index only: daily
    files, month and year manifests and both markers are as they were,
    whatever the batch. *)
Theorem gi_append_touches_only_index (now : string) (b : list slim) (s : fs) :
  let s' := gi_append_records now b s in
  fs_daily s' = fs_daily s ∧ fs_month s' = fs_month s ∧ fs_year s' = fs_year s ∧
  fs_news_marker s' = fs_news_marker s ∧ fs_yt_marker s' = fs_yt_marker s.
Proof. apply gi_append_records_frame. Qed.

(** X12.  With the descriptor absent or unparseable, a non-empty batch
    starts the index over: [index_1.json] is overwritten and holds the batch
    alone, whatever it held before, it is the only registered page, and the
    total is the length of the batch. *)
Theorem gi_append_restarts (now : string) (b : list slim) (s : fs) :
  b ≠ [] →
  fs_pagination s = None ∨ fs_pagination s = Some PUnparseable →
  let s' := gi_append_records now b s in
  files (loaded_pagination s') = ["index_1.json"] ∧
  page_items s' "index_1.json" = b ∧
  total_articles (loaded_pagination s') = Some (Z.of_nat (length b)) ∧
  (∀ p, p ≠ page_path "index_1.json" → fs_pages s' !! p = fs_pages s !! p).
Proof.
  intros Hb Hbad s'.
  assert (loaded_pagination s = {| total_articles := Some 0%Z; files := [] |}) as Hl.
  { unfold loaded_pagination, gi_load_pagination. simpl. by destruct Hbad as [-> | ->]. }
  destruct (gi_append_records_nonempty now b s Hb) as [Hpages Hpag].
  rewrite Hl in Hpages, Hpag. cbn [files total_articles default] in Hpages, Hpag.
  rewrite (current_size_no_pages s) in Hpages, Hpag by by rewrite Hl.
  rewrite bool_decide_eq_false_2 in Hpages, Hpag by (unfold GLOBAL_PAGE_SIZE; lia).
  unfold current_items in Hpages. rewrite Hl in Hpages.
  cbn [files last default] in Hpages, Hpag. rewrite index_name_1 in Hpages, Hpag.
  fold s' in Hpages, Hpag. rewrite (loaded_pagination_parsed _ _ Hpag).
  cbn [files total_articles]. split; [done|]. split; [|split].
  - by apply (page_items_insert s).
  - done.
  - intros p Hp. rewrite Hpages. by apply lookup_insert_ne.
Qed.

Lemma gi_append_restarts_witness :
  page_items (gi_append_records "t" [sample_slim] state_lost_descriptor) "index_1.json"
  = [sample_slim].
Proof.
  apply (gi_append_restarts "t" [sample_slim] state_lost_descriptor); [done|by right].
Defined.

(** ** The index as a stream cut into pages *)

Lemma page_size_pos : 1 ≤ GLOBAL_PAGE_SIZE.
Proof. unfold GLOBAL_PAGE_SIZE. lia. Qed.

Lemma last_index_names q :
  last (index_name <$> seq 1 (S q)) = Some (index_name (S q)).
Proof. rewrite seq_S, fmap_app. simpl. apply last_snoc. Qed.

Lemma chunk_snoc_full j l x :
  GLOBAL_PAGE_SIZE * j + GLOBAL_PAGE_SIZE ≤ length l → chunk j (l ++ [x]) = chunk j l.
Proof.
  intros Hlen. unfold chunk. rewrite drop_app_le by lia.
  apply take_app_le. rewrite length_drop. lia.
Qed.

Lemma chunk_snoc_last q r l x :
  length l = GLOBAL_PAGE_SIZE * q + r → r < GLOBAL_PAGE_SIZE →
  chunk q (l ++ [x]) = chunk q l ++ [x] ∧ length (chunk q l) = r.
Proof.
  intros Hlen Hr. unfold chunk. rewrite drop_app_le by lia.
  assert (length (drop (GLOBAL_PAGE_SIZE * q) l) = r) as Hd
    by (rewrite length_drop; lia).
  rewrite !take_ge by (rewrite ?length_app, Hd; cbn [length]; lia). done.
Qed.

Lemma chunk_snoc_new q l x :
  length l = GLOBAL_PAGE_SIZE * q → chunk q (l ++ [x]) = [x].
Proof.
  intros Hlen. unfold chunk. rewrite drop_app_length' by done.
  apply take_ge. cbn [length]. apply page_size_pos.
Qed.

Lemma chunk_length_last q r l :
  length l = GLOBAL_PAGE_SIZE * q + r → r ≤ GLOBAL_PAGE_SIZE → length (chunk q l) = r.
Proof. intros Hlen Hr. unfold chunk. rewrite length_take, length_drop. lia. Qed.

Lemma earlier_chunk_full j q r (l : list slim) :
  length l = GLOBAL_PAGE_SIZE * q + r → j < q →
  GLOBAL_PAGE_SIZE * j + GLOBAL_PAGE_SIZE ≤ length l.
Proof.
  intros Hlen Hj. pose proof (Nat.mul_le_mono_l (S j) q GLOBAL_PAGE_SIZE Hj).
  rewrite Nat.mul_succ_r in H. lia.
Qed.

Lemma paged_first now x s :
  fs_pagination s = None → fs_pages s = ∅ →
  paged [x] (gi_append_records now [x] s).
Proof.
  intros Hpag Hpages.
  destruct (append_to_empty_index now x s Hpag Hpages) as [Hpag' Hpages'].
  pose proof page_size_pos.
  exists 0, 1. split; [cbn [length]; lia|]. split; [lia|].
  split; [exact Hpag'|]. split.
  - intros j Hj. assert (j = 0) as -> by lia.
    by rewrite Hpages', index_name_1, lookup_singleton_eq.
  - intros p [v Hp]. rewrite Hpages' in Hp.
    apply lookup_singleton_Some in Hp as [<- _]. exists 0. by rewrite index_name_1.
Qed.

Lemma paged_step now x l s :
  paged l s → paged (l ++ [x]) (gi_append_records now [x] s).
Proof.
  intros (q & r & Hlen & Hr & Hpag & Hchunks & Honly).
  destruct (gi_append_records_nonempty now [x] s) as [Hp' Hpag']; [done|].
  rewrite (loaded_pagination_parsed _ _ Hpag) in Hp', Hpag'.
  assert (current_items s = chunk q l) as Hcur.
  { unfold current_items. rewrite (loaded_pagination_parsed _ _ Hpag).
    cbn [files]. rewrite last_index_names. unfold page_items, load_json_list.
    by rewrite Hchunks. }
  pose proof (chunk_length_last q r l Hlen (proj2 Hr)) as Hsize.
  unfold current_size in Hp', Hpag'. rewrite Hcur, Hsize in Hp', Hpag'.
  cbn [files total_articles default from_option id] in Hp', Hpag'.
  assert (match index_name <$> seq 1 (S q) with
          | [] => [index_name 1]
          | _ :: _ => index_name <$> seq 1 (S q)
          end = index_name <$> seq 1 (S q)) as Hfl by done.
  rewrite Hfl in Hp', Hpag'. clear Hfl.
  rewrite length_fmap, length_seq, last_index_names in Hp', Hpag'.
  cbn [default from_option id length] in Hp', Hpag'.
  assert (length (l ++ [x]) = S (length l)) as Hlen'
    by (rewrite length_app; cbn [length]; lia).
  assert (Z.of_nat (length l) + Z.of_nat 1 = Z.of_nat (length (l ++ [x])))%Z as Htot
    by lia.
  rewrite Htot in Hpag'. clear Htot.
  assert (∀ a b : nat, a ≠ b → page_path (index_name (S a)) ≠ page_path (index_name (S b)))
    as Hdiff.
  { intros a b Hab Heq. do 2 apply (inj _) in Heq. lia. }
  pose proof page_size_pos as Hpos.
  destruct (decide (r = GLOBAL_PAGE_SIZE)) as [->|Hroom].
  - rewrite bool_decide_eq_true_2 in Hp', Hpag' by lia.
    replace (S q + 1) with (S (S q)) in Hp', Hpag' by lia.
    exists (S q), 1. split; [rewrite Hlen', Hlen, Nat.mul_succ_r; lia|].
    split; [lia|]. split; [|split].
    + rewrite Hpag'. do 3 f_equal. by rewrite (seq_S (S q)), fmap_app.
    + intros j Hj. rewrite Hp'. destruct (decide (j = S q)) as [->|Hne].
      * rewrite lookup_insert_eq. do 2 f_equal. cbn [app]. symmetry.
        apply chunk_snoc_new. rewrite Hlen, Nat.mul_succ_r. lia.
      * rewrite lookup_insert_ne by (apply Hdiff; lia).
        rewrite Hchunks by lia. do 2 f_equal. symmetry.
        apply chunk_snoc_full.
        destruct (decide (j = q)) as [->|Hjq]; [lia|].
        apply (earlier_chunk_full j q GLOBAL_PAGE_SIZE l Hlen). lia.
    + intros p Hp. rewrite Hp' in Hp.
      destruct (decide (p = page_path (index_name (S (S q))))) as [->|Hne];
        [by exists (S q)|].
      rewrite lookup_insert_ne in Hp by done.
      destruct (Honly p Hp) as (j & Hj & ->). exists j. split; [lia|done].
  - rewrite bool_decide_eq_false_2 in Hp', Hpag' by lia.
    destruct (chunk_snoc_last q r l x Hlen ltac:(lia)) as [Hsnoc _].
    exists q, (S r). split; [lia|]. split; [lia|].
    split; [exact Hpag'|]. split.
    + intros j Hj. rewrite Hp'. destruct (decide (j = q)) as [->|Hne].
      * rewrite lookup_insert_eq. by rewrite Hsnoc.
      * rewrite lookup_insert_ne by (apply Hdiff; lia).
        rewrite Hchunks by lia. do 2 f_equal. symmetry.
        apply chunk_snoc_full.
        apply (earlier_chunk_full j q r l Hlen). lia.
    + intros p Hp. rewrite Hp' in Hp.
      destruct (decide (p = page_path (index_name (S q)))) as [->|Hne]; [by exists q|].
      rewrite lookup_insert_ne in Hp by done. by apply Honly.
Qed.

Lemma gi_append_each_paged_aux calls s :
  fs_pagination s = None → fs_pages s = ∅ → calls ≠ [] →
  paged (calls.*2) (gi_append_each calls s).
Proof.
  intros Hpag Hpages. induction calls as [|c calls IH] using rev_ind; [done|].
  intros _. rewrite gi_append_each_snoc, fmap_app. cbn [fmap list_fmap].
  destruct calls as [|c0 calls]; [by apply paged_first|].
  apply paged_step. by apply IH.
Qed.

(** X13.  One-record appends to an index that has no descriptor and no page
    lay the records out as the stream cut into runs of [GLOBAL_PAGE_SIZE]:
    after [N >= 1] appends there are exactly [ceil(N / GLOBAL_PAGE_SIZE)]
    page files, registered in order as [index_1.json], [index_2.json], ...,
    page [j+1] holds the records [j * GLOBAL_PAGE_SIZE] onwards up to the
    page size, in the order they were appended, and the total is [N]. *)
Theorem gi_append_each_paged (calls : list (string * slim)) (s : fs) :
  fs_pagination s = None → fs_pages s = ∅ → calls ≠ [] →
  let s' := gi_append_each calls s in
  ∃ q r,
    length calls = GLOBAL_PAGE_SIZE * q + r ∧ 1 ≤ r ≤ GLOBAL_PAGE_SIZE ∧
    files (loaded_pagination s') = index_name <$> seq 1 (S q) ∧
    total_articles (loaded_pagination s') = Some (Z.of_nat (length calls)) ∧
    (∀ j, j ≤ q →
       page_items s' (index_name (S j))
       = take GLOBAL_PAGE_SIZE (drop (GLOBAL_PAGE_SIZE * j) (calls.*2))) ∧
    size (fs_pages s') = S q.
Proof.
  intros Hpag Hpages Hne s'.
  destruct (gi_append_each_paged_aux calls s Hpag Hpages Hne)
    as (q & r & Hlen & Hr & Hpag' & Hchunks & Honly).
  fold s' in Hpag', Hchunks, Honly. rewrite length_fmap in Hlen, Hpag'.
  exists q, r. split; [done|]. split; [done|].
  rewrite (loaded_pagination_parsed _ _ Hpag'). cbn [files total_articles].
  split; [done|]. split; [done|]. split.
  - intros j Hj. unfold page_items, load_json_list. by rewrite Hchunks.
  - assert (dom (fs_pages s')
            = list_to_set ((λ j, page_path (index_name (S j))) <$> seq 0 (S q))) as Hdom.
    { apply set_eq. intros p. rewrite elem_of_dom, elem_of_list_to_set, list_elem_of_fmap.
      split.
      - intros Hp. destruct (Honly p Hp) as (j & Hj & ->). exists j.
        split; [done|]. apply elem_of_seq. lia.
      - intros (j & -> & Hj%elem_of_seq). rewrite Hchunks by lia. done. }
    rewrite <- size_dom, Hdom, size_list_to_set, length_fmap, length_seq; [done|].
    apply NoDup_fmap_2; [|apply NoDup_seq].
    intros a b Heq. do 2 apply (inj _) in Heq. lia.
Qed.

Lemma gi_append_each_paged_witness :
  ∃ q r,
    length (replicate 1201 ("t", sample_slim)) = GLOBAL_PAGE_SIZE * q + r ∧
    1 ≤ r ≤ GLOBAL_PAGE_SIZE ∧
    size (fs_pages (gi_append_each (replicate 1201 ("t", sample_slim)) empty_fs)) = S q.
Proof.
  destruct (gi_append_each_paged (replicate 1201 ("t", sample_slim)) empty_fs
              eq_refl eq_refl) as (q & r & Hlen & Hr & _ & _ & _ & Hsize).
  - change (replicate 1201 ("t", sample_slim))
      with (("t", sample_slim) :: replicate 1200 ("t", sample_slim)). discriminate.
  - exists q, r. split; [exact Hlen|]. split; [exact Hr|exact Hsize].
Defined.

(** ** The total of the descriptor *)

Lemma page_total_snoc s names f :
  page_total s (names ++ [f]) = page_total s names + length (page_items s f).
Proof. unfold page_total. rewrite sum_list_with_app. simpl. lia. Qed.

Lemma page_total_unchanged s s' names :
  (∀ f, f ∈ names → fs_pages s' !! page_path f = fs_pages s !! page_path f) →
  page_total s' names = page_total s names.
Proof.
  unfold page_total. induction names as [|f names IH]; intros Hsame; [done|].
  cbn [sum_list_with]. rewrite IH by (intros g Hg; apply Hsame; by right).
  unfold page_items, load_json_list. rewrite Hsame by left. done.
Qed.

Lemma index_names_other (m k : nat) (f : string) :
  f ∈ index_name <$> seq 1 m → m < k → page_path f ≠ page_path (index_name k).
Proof.
  intros (j & -> & Hj%elem_of_seq)%list_elem_of_fmap Hk Heq.
  do 2 apply (inj _) in Heq. lia.
Qed.

Lemma gi_consistent_step now (b : list slim) (s : fs) :
  b ≠ [] → gi_consistent s → gi_consistent (gi_append_records now b s).
Proof.
  intros Hb (n & Hfiles & Htotal).
  destruct (gi_append_records_pages now b s Hb) as (cur' & Hlast & Hfl & Hpages & Htot').
  set (s' := gi_append_records now b s) in *.
  unfold gi_consistent. rewrite Htot'. cbn [default from_option id].
  rewrite Htotal. rewrite Hfiles in Hfl |- *.
  assert (∀ names, (∀ f, f ∈ names → page_path f ≠ page_path cur') →
                   page_total s' names = page_total s names) as Hkeep.
  { intros names Hne. apply page_total_unchanged. intros f Hf.
    rewrite Hpages. apply lookup_insert_ne. intros Heq. by apply (Hne f Hf). }
  pose proof (page_items_insert s s' _ _ Hpages) as Hitems.
  destruct n as [|m].
  - assert (current_size s = 0) as H0 by (apply current_size_no_pages; by rewrite Hfiles).
    assert (current_items s = []) as Hcur by (by apply nil_length_inv).
    rewrite H0, Hcur in *.
    rewrite bool_decide_eq_false_2 in Hfl, Hitems by (pose proof page_size_pos; lia).
    cbn [fmap list_fmap seq] in Hfl. rewrite Hfl in Hlast |- *.
    injection Hlast as <-. exists 1. split; [done|].
    unfold page_total. cbn [sum_list_with fmap list_fmap seq].
    rewrite Hitems. cbn [app]. lia.
  - assert (current_items s = page_items s (index_name (S m))) as Hcur.
    { unfold current_items. by rewrite Hfiles, last_index_names. }
    rewrite length_fmap, length_seq in Hfl.
    replace (S m + 1) with (S (S m)) in Hfl by lia.
    assert (index_name <$> seq 1 (S (S m))
            = (index_name <$> seq 1 (S m)) ++ [index_name (S (S m))]) as Hseq
      by (by rewrite (seq_S (S m)), fmap_app).
    destruct (bool_decide (GLOBAL_PAGE_SIZE ≤ current_size s)) eqn:Hrot.
    + rewrite Hfl, last_snoc in Hlast. injection Hlast as <-.
      exists (S (S m)). rewrite Hfl. split; [done|].
      rewrite page_total_snoc, Hitems, Hkeep; [cbn [app]; lia|].
      intros f Hf. apply (index_names_other (S m)); [done|lia].
    + assert (match index_name <$> seq 1 (S m) with
              | [] => [index_name 1]
              | _ :: _ => index_name <$> seq 1 (S m)
              end = index_name <$> seq 1 (S m)) as Hsame by done.
      rewrite Hsame in Hfl. rewrite Hfl, last_index_names in Hlast.
      injection Hlast as <-. exists (S m). rewrite Hfl. split; [done|].
      rewrite (seq_S m), fmap_app. cbn [fmap list_fmap]. change (1 + m) with (S m).
      rewrite !page_total_snoc, Hitems, Hkeep, Hcur, length_app; [lia|].
      intros f Hf. apply (index_names_other m); [done|lia].
Qed.

(** X14.  An index whose descriptor names its pages [index_1.json] to
    [index_n.json] and whose total is the number of records in those pages
    is still such an index after every call of [gi_append_records], whatever
    the size of the batch; an index without descriptor is one, with [n = 0]. *)
Theorem gi_append_keeps_total (now : string) (b : list slim) (s : fs) :
  gi_consistent s → gi_consistent (gi_append_records now b s).
Proof.
  intros Hs. destruct (decide (b = [])) as [->|Hb]; [done|].
  by apply gi_consistent_step.
Qed.

Lemma gi_append_keeps_total_witness :
  gi_consistent (gi_append_records "t" [sample_slim; sample_slim] empty_fs).
Proof.
  apply gi_append_keeps_total. exists 0. by split.
Defined.

(** ** The year manifest *)

Section YearLoop.
Variable dir : string.

Lemma year_loop_keys l (d0 : dict) k :
  k ∈ (foldl (λ months m, dict_set m (joinpath (joinpath dir m) MONTH_MANIFEST) months)
             d0 l).*1 ↔ k ∈ d0.*1 ∨ k ∈ l.
Proof.
  revert d0. induction l as [|n l IH]; intros d0; simpl.
  - rewrite elem_of_nil. tauto.
  - rewrite IH, dict_set_keys, elem_of_cons. tauto.
Qed.

Lemma year_loop_NoDup l (d0 : dict) :
  NoDup d0.*1 →
  NoDup (foldl (λ months m, dict_set m (joinpath (joinpath dir m) MONTH_MANIFEST) months)
               d0 l).*1.
Proof.
  revert d0. induction l as [|n l IH]; intros d0 Hnd; simpl; [done|].
  apply IH. by apply dict_set_NoDup.
Qed.

Lemma year_loop_elem l (d0 : dict) k v :
  (k, v) ∈ foldl (λ months m, dict_set m (joinpath (joinpath dir m) MONTH_MANIFEST) months)
                 d0 l →
  (k, v) ∈ d0 ∨ (k ∈ l ∧ v = joinpath (joinpath dir k) MONTH_MANIFEST).
Proof.
  revert d0. induction l as [|n l IH]; intros d0; simpl; [by left|].
  intros Hin. destruct (IH _ Hin) as [Hd|[Hk Hv]].
  - apply dict_set_elem in Hd as [[-> ->]|?]; [right|by left].
    split; [by left|done].
  - right. split; [by right|done].
Qed.
End YearLoop.

Lemma year_months_spec (dir : string) (listing : list string) :
  let months := year_months dir listing in
  (∀ k, k ∈ months.*1 ↔ k ∈ listing ∧ is_month_name k = true) ∧
  (∀ k, k ∈ months.*1 →
        dict_get k months = Some (joinpath (joinpath dir k) MONTH_MANIFEST)) ∧
  StronglySorted (λ a b, String.ltb b.1 a.1 = true) months.
Proof.
  intros months. unfold months, year_months.
  set (matches := sorted_asc _).
  assert (∀ n, n ∈ matches ↔ n ∈ listing ∧ is_month_name n = true) as Hm.
  { intros n. unfold matches, sorted_asc.
    rewrite merge_sort_Permutation, list_elem_of_filter, Is_true_true. tauto. }
  set (loop := foldl _ _ matches).
  assert (NoDup loop.*1) as Hnd by (apply year_loop_NoDup; constructor).
  assert (∀ k, k ∈ (sorted_desc_by_key loop).*1 ↔ k ∈ listing ∧ is_month_name k = true)
    as Hkeys.
  { intros k. unfold sorted_desc_by_key. rewrite merge_sort_Permutation.
    unfold loop. rewrite year_loop_keys. simpl. rewrite elem_of_nil, Hm. tauto. }
  split; [exact Hkeys|]. split; [|by apply sorted_desc_strict].
  intros k Hk. apply list_elem_of_fmap in Hk as ([k' v] & -> & Hin). simpl.
  apply dict_get_Some.
  - unfold sorted_desc_by_key. by rewrite merge_sort_Permutation.
  - assert ((k', v) ∈ loop) as Hin'
      by (unfold sorted_desc_by_key in Hin; by rewrite merge_sort_Permutation in Hin).
    apply year_loop_elem in Hin' as [Hin'|[_ ->]]; [by apply elem_of_nil in Hin'|done].
Qed.

(** X15.  [update_year_manifest] writes, at [data/<year>/year_manifest.json],
    a manifest for that year whose keys are exactly the entries of the year
    directory with a two-character name matching [[0-1][0-9]]; each key is
    mapped to [<year dir>/<key>/month_manifest.json], whether that file
    exists or not; the keys are in strictly descending order; and no daily
    file, month manifest, index file or marker is touched. *)
Theorem update_year_manifest_months (dt : date) (s : fs) :
  let year_dir := joinpath DATA_BASE (pretty (year dt)) in
  let s' := update_year_manifest dt s in
  (∃ mf,
     fs_year s' !! joinpath year_dir "year_manifest.json" = Some mf ∧
     ym_year mf = pretty (year dt) ∧
     (∀ k, k ∈ (ym_months mf).*1 ↔ k ∈ listdir s year_dir ∧ is_month_name k = true) ∧
     (∀ k, k ∈ (ym_months mf).*1 →
           dict_get k (ym_months mf)
           = Some (joinpath (joinpath year_dir k) MONTH_MANIFEST)) ∧
     StronglySorted (λ a b, String.ltb b.1 a.1 = true) (ym_months mf)) ∧
  fs_daily s' = fs_daily s ∧ fs_month s' = fs_month s ∧ fs_pages s' = fs_pages s ∧
  fs_pagination s' = fs_pagination s ∧ fs_stats s' = fs_stats s ∧
  fs_news_marker s' = fs_news_marker s ∧ fs_yt_marker s' = fs_yt_marker s.
Proof.
  intros year_dir s'. split; [|done].
  eexists. split.
  { unfold s', update_year_manifest. cbn [fs_year]. apply lookup_insert_eq. }
  cbn [ym_year ym_months]. split; [done|]. fold year_dir.
  destruct (year_months_spec year_dir (listdir (ensure_dir year_dir s) year_dir))
    as (Hkeys & Hget & Hsorted).
  split; [|split; [exact Hget|exact Hsorted]].
  intros k. rewrite Hkeys. by rewrite listdir_ensure_dir.
Qed.

(** ** Daily files that share a day key *)

Lemma dict_get_set k k' v (d : dict) :
  dict_get k (dict_set k' v d) = if decide (k = k') then Some v else dict_get k d.
Proof.
  induction d as [|[k0 v0] d IH]; simpl.
  - by repeat case_decide.
  - repeat (case_decide; simpl; subst); try done; try congruence.
Qed.

Lemma dict_get_elem k v (d : dict) : dict_get k d = Some v → (k, v) ∈ d.
Proof.
  induction d as [|[k0 v0] d IH]; simpl; [done|].
  case_decide as Hk; [intros [= ->]; subst; by left|].
  intros Hget. right. by apply IH.
Qed.

Lemma dict_get_sorted k (d : dict) :
  NoDup d.*1 → dict_get k (sorted_desc_by_key d) = dict_get k d.
Proof.
  intros Hnd. destruct (dict_get k d) as [v|] eqn:Hget.
  - apply dict_get_Some.
    + unfold sorted_desc_by_key. by rewrite merge_sort_Permutation.
    + unfold sorted_desc_by_key. rewrite merge_sort_Permutation.
      by apply dict_get_elem.
  - destruct (dict_get k (sorted_desc_by_key d)) as [v|] eqn:Hget'; [|done].
    apply dict_get_elem in Hget'. unfold sorted_desc_by_key in Hget'.
    rewrite merge_sort_Permutation in Hget'.
    by rewrite (dict_get_Some d k v Hnd Hget') in Hget.
Qed.

Lemma month_loop_get dir k names (d0 : dict) :
  dict_get k (foldl (month_loop_body dir) d0 names)
  = match last_with_key k names with
    | Some n => Some (joinpath dir n)
    | None => dict_get k d0
    end.
Proof.
  unfold last_with_key. revert d0.
  induction names as [|n names IH]; intros d0; [done|].
  cbn [foldl]. rewrite IH, filter_cons. unfold month_loop_body.
  destruct (decide (n = MONTH_MANIFEST)) as [->|Hn].
  - by rewrite decide_False by (by intros [? _]).
  - destruct (decide (k = day_key n)) as [->|Hk].
    + rewrite decide_True by done. rewrite last_cons.
      destruct (last _); [done|]. by rewrite dict_get_set, decide_True.
    + rewrite decide_False by (by intros [_ ?]).
      destruct (last _); [done|]. by rewrite dict_get_set, decide_False.
Qed.

Lemma StronglySorted_filter {A} (R : relation A) (P : A → Prop)
    `{∀ x, Decision (P x)} (l : list A) :
  StronglySorted R l → StronglySorted R (filter P l).
Proof.
  induction 1 as [|x l Hs IH Hall]; [constructor|].
  rewrite filter_cons. case_decide; [|done].
  constructor; [done|]. apply Forall_forall. intros y Hy.
  apply list_elem_of_filter in Hy as [_ Hy].
  by apply (proj1 (Forall_forall _ _) Hall).
Qed.

Lemma StronglySorted_last_max {A} (R : relation A) `{!Reflexive R} (l : list A) x y :
  StronglySorted R l → last l = Some x → y ∈ l → R y x.
Proof.
  intros Hs Hlast Hy. apply last_Some in Hlast as [l' ->].
  apply elem_of_app in Hy as [Hy|Hy].
  - apply (StronglySorted_app_1_elem_of R l' [x]); [done..|]. by left.
  - apply list_elem_of_singleton in Hy as ->. done.
Qed.

(** X16.  Whatever files the month directory holds, every [*.json] file
    other than the manifest has its day key (the part of its stem before
    the first dash) in the manifest, and the key is mapped to the path of
    the file that comes last in name order among the files with that key:
    when several files share a day key, the greatest name wins and the
    others are not listed. *)
Theorem month_days_greatest_name (dir : string) (listing : list string) (n : string) :
  is_day_file listing n →
  ∃ n', is_day_file listing n' ∧ day_key n' = day_key n ∧
        dict_get (day_key n) (month_days dir listing) = Some (joinpath dir n') ∧
        ∀ n'', is_day_file listing n'' → day_key n'' = day_key n → String.le n'' n'.
Proof.
  intros (Hl & Hjson & Hnm). unfold month_days.
  set (matches := sorted_asc _).
  assert (∀ x, x ∈ matches ↔ x ∈ listing ∧ Text.endswith ".json" x = true) as Hm.
  { intros x. unfold matches, sorted_asc.
    rewrite merge_sort_Permutation, list_elem_of_filter, Is_true_true. tauto. }
  assert (StronglySorted String.le matches) as Hsorted
    by apply (StronglySorted_merge_sort String.le).
  rewrite dict_get_sorted by (apply month_loop_NoDup; constructor).
  rewrite month_loop_get. unfold last_with_key.
  set (same := filter _ matches).
  assert (∀ x, x ∈ same ↔ is_day_file listing x ∧ day_key x = day_key n) as Hsame.
  { intros x. unfold same, is_day_file. rewrite list_elem_of_filter, Hm. tauto. }
  destruct (last same) as [n'|] eqn:Hlast.
  - exists n'. assert (n' ∈ same) as Hn' by (by apply last_Some_elem_of).
    apply Hsame in Hn' as [Hfile Hkey]. split; [done|]. split; [done|].
    split; [done|]. intros n'' Hfile'' Hkey''.
    apply (StronglySorted_last_max String.le same); [|done|by apply Hsame].
    by apply StronglySorted_filter.
  - apply last_None in Hlast. assert (n ∈ same) as Hin by (by apply Hsame).
    rewrite Hlast in Hin. by apply elem_of_nil in Hin.
Qed.

Lemma month_days_greatest_name_witness :
  ∃ n', day_key n' = "07" ∧
        dict_get "07" (month_days "data/2025/05"
                         ["07-05.json"; "07.json"; "07-old.json"; "08-05.json"])
        = Some (joinpath "data/2025/05" n') ∧
        String.le "07-05.json" n'.
Proof.
  destruct (month_days_greatest_name "data/2025/05"
              ["07-05.json"; "07.json"; "07-old.json"; "08-05.json"] "07-05.json")
    as (n' & _ & Hkey & Hget & Hmax).
  - split; [set_solver|]. by split.
  - exists n'. split; [exact Hkey|]. split; [exact Hget|].
    apply Hmax; [|reflexivity]. split; [set_solver|]. by split.
Defined.

(** ** What a save leaves alone *)


Lemma save_single_news_prefix today e s :
  day_sequence today s `prefix_of` day_sequence today (save_single_news today e s).2.
Proof.
  destruct (day_sequence_dec today e s) as [Hdup|Hnew].
  - by rewrite (save_single_news_dup today e s Hdup).
  - rewrite (save_single_news_new today e s Hnew). cbn [snd].
    rewrite (day_sequence_saved today _ (daily_path today s).2).
    by apply prefix_app_r.
Qed.

Lemma save_single_news_keys today e s k :
  k ∈ record_key <$> day_sequence today (save_single_news today e s).2 ↔
  k ∈ record_key <$> day_sequence today s ∨ k = get_entry_identity e.
Proof.
  destruct (day_sequence_dec today e s) as [Hdup|Hnew].
  - rewrite (save_single_news_dup today e s Hdup). cbn [snd].
    change (day_sequence today (daily_path today s).2) with (day_sequence today s).
    split; [by left|]. intros [Hk| ->]; [done|].
    destruct Hdup as (x & Hx & <-). by apply list_elem_of_fmap_2.
  - rewrite (save_single_news_new today e s Hnew). cbn [snd].
    rewrite (day_sequence_saved today _ (daily_path today s).2).
    rewrite fmap_app, elem_of_app. cbn [fmap list_fmap].
    by rewrite list_elem_of_singleton, key_of_built_record.
Qed.

(** X18.  However many items are saved on one day, and in whatever order,
    the day's file never holds two records with one dedup key (given that
    it held none before): its keys stay pairwise distinct, the records it
    held stay in place at the front, and its keys afterwards are the keys
    it had together with the identities of the items saved. *)
Theorem save_each_keys (today : date) (es : list entry) (s : fs) :
  NoDup (record_key <$> day_sequence today s) →
  let l' := day_sequence today (save_each today es s) in
  NoDup (record_key <$> l') ∧
  day_sequence today s `prefix_of` l' ∧
  ∀ k, k ∈ record_key <$> l' ↔
       k ∈ record_key <$> day_sequence today s ∨ k ∈ get_entry_identity <$> es.
Proof.
  revert s. induction es as [|e es IH]; intros s Hnd; cbn zeta.
  - split; [done|]. split; [done|]. intros k. cbn. rewrite elem_of_nil. tauto.
  - change (save_each today (e :: es) s)
      with (save_each today es (save_single_news today e s).2).
    destruct (IH (save_single_news today e s).2) as (Hnd' & Hpre & Hkeys);
      [by apply save_single_news_keeps_unique|].
    split; [exact Hnd'|]. split.
    + etrans; [apply save_single_news_prefix|exact Hpre].
    + intros k. rewrite Hkeys, save_single_news_keys, fmap_cons, elem_of_cons. tauto.
Qed.

Lemma save_each_keys_witness :
  let l' := day_sequence sample_day
              (save_each sample_day [sample_entry_a; sample_entry_a_spaced; sample_entry_b]
                         empty_fs) in
  NoDup (record_key <$> l') ∧
  day_sequence sample_day empty_fs `prefix_of` l' ∧
  ∀ k, k ∈ record_key <$> l' ↔
       k ∈ record_key <$> day_sequence sample_day empty_fs ∨
       k ∈ get_entry_identity <$> [sample_entry_a; sample_entry_a_spaced; sample_entry_b].
Proof.
  apply (save_each_keys sample_day
           [sample_entry_a; sample_entry_a_spaced; sample_entry_b] empty_fs).
  unfold day_sequence. cbn [fs_daily empty_fs]. rewrite lookup_empty. constructor.
Defined.

(** ** One file per day *)

Lemma daily_path_string (dt : date) (s : fs) :
  (daily_path dt s).1
  = "data/" +:+ (pretty (year dt) +:+
      ("/" +:+ (Text.fmt02 (month dt) +:+
         ("/" +:+ (Text.fmt02 (day dt) +:+
            ("-" +:+ (Text.fmt02 (month dt) +:+ ".json"))))))).
Proof.
  unfold daily_path, month_dir_of, joinpath, daily_name, DATA_BASE. cbn [fst].
  by rewrite !append_assoc.
Qed.

(** X19.  Two dates with months 1 to 12 and days 1 to 31 have the same
    daily file only when they are the same date: records of different days
    never share a file. *)
Theorem daily_path_inj (d1 d2 : date) (s1 s2 : fs) :
  1 ≤ month d1 ≤ 12 → 1 ≤ day d1 ≤ 31 →
  1 ≤ month d2 ≤ 12 → 1 ≤ day d2 ≤ 31 →
  (daily_path d1 s1).1 = (daily_path d2 s2).1 → d1 = d2.
Proof.
  intros Hm1 Hd1 Hm2 Hd2. rewrite !daily_path_string. intros Heq.
  destruct (fmt02_day (month d1)) as [_ Lm1]; [lia|].
  destruct (fmt02_day (month d2)) as [_ Lm2]; [lia|].
  destruct (fmt02_day (day d1) Hd1) as [_ Ld1].
  destruct (fmt02_day (day d2) Hd2) as [_ Ld2].
  apply (append_eq_len "data/" "data/") in Heq as [_ Heq]; [|done].
  pose proof (f_equal String.length Heq) as Hlen.
  rewrite !length_append, Lm1, Lm2, Ld1, Ld2 in Hlen.
  apply append_eq_len in Heq as [Hy Heq]; [|lia].
  apply (append_eq_len "/" "/") in Heq as [_ Heq]; [|done].
  apply append_eq_len in Heq as [Hm Heq]; [|congruence].
  apply (append_eq_len "/" "/") in Heq as [_ Heq]; [|done].
  apply append_eq_len in Heq as [Hd _]; [|congruence].
  apply (inj pretty) in Hy.
  apply fmt02_day_inj in Hm; [|lia..]. apply fmt02_day_inj in Hd; [|lia..].
  destruct d1, d2; cbn in *; congruence.
Qed.

Lemma daily_path_inj_witness :
  {| year := 2025; month := 5; day := 7 |} = sample_day.
Proof.
  apply (daily_path_inj {| year := 2025; month := 5; day := 7 |} sample_day
           empty_fs state_after_a); [cbn; lia..|].
  rewrite !daily_path_string. reflexivity.
Defined.

(** ** A run that ends by an exception *)





(** ** Rebuilding a manifest *)

Lemma strip_prefix_app (p s : string) : Text.strip_prefix p (p +:+ s) = Some s.
Proof.
  induction p as [|x p IH]; [done|]. rewrite append_cons. cbn.
  by rewrite Ascii.eqb_refl.
Qed.

Lemma entry_below_month_manifest (dir : string) :
  entry_below dir (joinpath dir MONTH_MANIFEST) = Some MONTH_MANIFEST.
Proof.
  unfold entry_below, joinpath. rewrite <- ?append_assoc.
  by rewrite strip_prefix_app.
Qed.

Lemma entry_below_year_manifest (dir : string) :
  entry_below dir (joinpath dir "year_manifest.json") = Some "year_manifest.json".
Proof.
  unfold entry_below, joinpath. rewrite <- ?append_assoc.
  by rewrite strip_prefix_app.
Qed.

Lemma elem_of_listdir (s : fs) (dir n : string) :
  n ∈ listdir s dir ↔
  ∃ p, (p ∈ fs_dirs s ∨ p ∈ dom (fs_daily s) ∨ p ∈ dom (fs_month s) ∨ p ∈ dom (fs_year s)) ∧
       entry_below dir p = Some n.
Proof.
  unfold listdir, data_paths. rewrite elem_of_remove_dups, list_elem_of_omap.
  split; intros (p & Hp & He); exists p; (split; [|done]).
  - rewrite !elem_of_app, !elem_of_elements in Hp. tauto.
  - rewrite !elem_of_app, !elem_of_elements. tauto.
Qed.

Lemma listdir_NoDup (s : fs) (dir : string) : NoDup (listdir s dir).
Proof. apply NoDup_remove_dups. Qed.

Lemma sorted_filter_ext (P : string → Prop) `{∀ x, Decision (P x)} (l l' : list string) :
  NoDup l → NoDup l' → (∀ n, P n → n ∈ l ↔ n ∈ l') →
  filter P (sorted_asc l) = filter P (sorted_asc l').
Proof.
  intros Hnd Hnd' Hext. unfold sorted_asc.
  apply (StronglySorted_unique String.le).
  - apply StronglySorted_filter, (StronglySorted_merge_sort String.le).
  - apply StronglySorted_filter, (StronglySorted_merge_sort String.le).
  - apply NoDup_Permutation.
    + apply NoDup_filter. by rewrite merge_sort_Permutation.
    + apply NoDup_filter. by rewrite merge_sort_Permutation.
    + intros n. rewrite !list_elem_of_filter, !merge_sort_Permutation.
      split; intros [HP Hin]; (split; [done|]); by apply (Hext n HP).
Qed.

Lemma month_loop_filter dir (l : list string) (d0 : dict) :
  foldl (month_loop_body dir) d0 l
  = foldl (month_loop_body dir) d0 (filter (λ n, n ≠ MONTH_MANIFEST) l).
Proof.
  revert d0. induction l as [|n l IH]; intros d0; [done|].
  cbn [foldl]. rewrite filter_cons.
  destruct (decide (n = MONTH_MANIFEST)) as [->|Hn].
  - rewrite decide_False by (by intros ?). unfold month_loop_body at 2.
    rewrite decide_True by done. apply IH.
  - rewrite decide_True by done. cbn [foldl]. apply IH.
Qed.

(** The [days] mapping depends on the listing only through the set of
    names other than the manifest's. *)
Lemma month_days_ext dir (l l' : list string) :
  NoDup l → NoDup l' → (∀ n, n ≠ MONTH_MANIFEST → n ∈ l ↔ n ∈ l') →
  month_days dir l = month_days dir l'.
Proof.
  intros Hnd Hnd' Hext. unfold month_days. cbn zeta.
  rewrite (month_loop_filter dir (sorted_asc (filter _ l))).
  rewrite (month_loop_filter dir (sorted_asc (filter _ l'))).
  rewrite (sorted_filter_ext (λ n, n ≠ MONTH_MANIFEST)
             (filter (λ n, Is_true (Text.endswith ".json" n)) l)
             (filter (λ n, Is_true (Text.endswith ".json" n)) l')); [done|..].
  - by apply NoDup_filter.
  - by apply NoDup_filter.
  - intros n Hn. rewrite !list_elem_of_filter. by rewrite (Hext n Hn).
Qed.

Lemma filter_id {A} (P : A → Prop) `{∀ x, Decision (P x)} (l : list A) :
  (∀ x, x ∈ l → P x) → filter P l = l.
Proof.
  induction l as [|x l IH]; intros Hall; [done|].
  rewrite filter_cons, decide_True by (apply Hall; by left).
  f_equal. apply IH. intros y Hy. apply Hall. by right.
Qed.

(** The [months] mapping depends on the listing only through the set of
    names that match the month pattern. *)
Lemma year_months_ext dir (l l' : list string) :
  NoDup l → NoDup l' → (∀ n, is_month_name n = true → n ∈ l ↔ n ∈ l') →
  year_months dir l = year_months dir l'.
Proof.
  intros Hnd Hnd' Hext. unfold year_months. cbn zeta.
  set (P := λ n : string, Is_true (is_month_name n)).
  assert (∀ x, x ∈ sorted_asc (filter P l) → P x) as Hl.
  { intros x. unfold sorted_asc. rewrite merge_sort_Permutation, list_elem_of_filter. tauto. }
  assert (∀ x, x ∈ sorted_asc (filter P l') → P x) as Hl'.
  { intros x. unfold sorted_asc. rewrite merge_sort_Permutation, list_elem_of_filter. tauto. }
  rewrite <- (filter_id P _ Hl), <- (filter_id P _ Hl').
  rewrite (sorted_filter_ext P (filter P l) (filter P l')); [done|..].
  - by apply NoDup_filter.
  - by apply NoDup_filter.
  - intros n Hn. rewrite !list_elem_of_filter.
    unfold P in Hn. apply Is_true_true in Hn. by rewrite (Hext n Hn).
Qed.

Lemma update_month_manifest_eq (dt : date) (s : fs) :
  update_month_manifest dt s
  = let month_dir := month_dir_of (year dt) (month dt) in
    Fs ({[month_dir]} ∪ fs_dirs s) (fs_daily s)
       (<[joinpath month_dir MONTH_MANIFEST :=
            {| mm_year := pretty (year dt);
               mm_month := Text.fmt02 (month dt);
               mm_days := month_days month_dir (listdir (ensure_dir month_dir s) month_dir) |}
         ]> (fs_month s))
       (fs_year s) (fs_pages s) (fs_pagination s) (fs_stats s)
       (fs_news_marker s) (fs_yt_marker s).
Proof. reflexivity. Qed.

Lemma update_year_manifest_eq (dt : date) (s : fs) :
  update_year_manifest dt s
  = let year_dir := joinpath DATA_BASE (pretty (year dt)) in
    Fs ({[year_dir]} ∪ fs_dirs s) (fs_daily s) (fs_month s)
       (<[joinpath year_dir "year_manifest.json" :=
            {| ym_year := pretty (year dt);
               ym_months := year_months year_dir (listdir (ensure_dir year_dir s) year_dir) |}
         ]> (fs_year s))
       (fs_pages s) (fs_pagination s) (fs_stats s)
       (fs_news_marker s) (fs_yt_marker s).
Proof. reflexivity. Qed.

(** X21.  Rebuilding the month manifest is idempotent: the manifest file
    that the first call wrote is in the directory the second call lists,
    and the loop leaves it out, so the second call writes what the first
    wrote and the files are as after one call. *)
Theorem update_month_manifest_idem (dt : date) (s : fs) :
  update_month_manifest dt (update_month_manifest dt s) = update_month_manifest dt s.
Proof.
  set (s1 := update_month_manifest dt s).
  rewrite (update_month_manifest_eq dt s1). cbn zeta.
  set (md := month_dir_of (year dt) (month dt)).
  assert (month_days md (listdir (ensure_dir md s1) md)
          = month_days md (listdir (ensure_dir md s) md)) as ->.
  { apply month_days_ext; [apply listdir_NoDup..|].
    intros n Hn. rewrite !listdir_ensure_dir, !elem_of_listdir.
    unfold s1. rewrite update_month_manifest_eq.
    cbn [fs_dirs fs_daily fs_month fs_year]. fold md.
    split.
    - intros (p & Hp & He). exists p. split; [|done].
      destruct Hp as [Hp|[Hp|[Hp|Hp]]]; [|tauto| |tauto].
      + apply elem_of_union in Hp as [Hp%elem_of_singleton|Hp]; [|tauto].
        subst p. by rewrite entry_below_self in He.
      + rewrite dom_insert in Hp.
        apply elem_of_union in Hp as [Hp%elem_of_singleton|Hp]; [|tauto].
        subst p. rewrite entry_below_month_manifest in He. by injection He as <-.
    - intros (p & Hp & He). exists p. split; [|done].
      destruct Hp as [Hp|[Hp|[Hp|Hp]]]; [|tauto| |tauto].
      + left. by apply elem_of_union_r.
      + right. right. left. rewrite dom_insert. by apply elem_of_union_r. }
  unfold s1. rewrite (update_month_manifest_eq dt s).
  cbn [fs_dirs fs_daily fs_month fs_year fs_pages fs_pagination
       fs_stats fs_news_marker fs_yt_marker]. fold md.
  rewrite insert_insert_eq. f_equal.
  apply subseteq_union_1_L, union_subseteq_l.
Qed.

(** X22.  Rebuilding the year manifest is idempotent: the manifest file the
    first call wrote does not match the month pattern, so the second call
    finds the same months and the files are as after one call. *)
Theorem update_year_manifest_idem (dt : date) (s : fs) :
  update_year_manifest dt (update_year_manifest dt s) = update_year_manifest dt s.
Proof.
  set (s1 := update_year_manifest dt s).
  rewrite (update_year_manifest_eq dt s1). cbn zeta.
  set (yd := joinpath DATA_BASE (pretty (year dt))).
  assert (year_months yd (listdir (ensure_dir yd s1) yd)
          = year_months yd (listdir (ensure_dir yd s) yd)) as ->.
  { apply year_months_ext; [apply listdir_NoDup..|].
    intros n Hn. rewrite !listdir_ensure_dir, !elem_of_listdir.
    unfold s1. rewrite update_year_manifest_eq.
    cbn [fs_dirs fs_daily fs_month fs_year]. fold yd.
    split.
    - intros (p & Hp & He). exists p. split; [|done].
      destruct Hp as [Hp|[Hp|[Hp|Hp]]]; [|tauto|tauto|].
      + apply elem_of_union in Hp as [Hp%elem_of_singleton|Hp]; [|tauto].
        subst p. by rewrite entry_below_self in He.
      + rewrite dom_insert in Hp.
        apply elem_of_union in Hp as [Hp%elem_of_singleton|Hp]; [|tauto].
        subst p. rewrite entry_below_year_manifest in He. injection He as <-.
        by vm_compute in Hn.
    - intros (p & Hp & He). exists p. split; [|done].
      destruct Hp as [Hp|[Hp|[Hp|Hp]]]; [|tauto|tauto|].
      + left. by apply elem_of_union_r.
      + right. right. right. rewrite dom_insert. by apply elem_of_union_r. }
  unfold s1. rewrite (update_year_manifest_eq dt s).
  cbn [fs_dirs fs_daily fs_month fs_year fs_pages fs_pagination
       fs_stats fs_news_marker fs_yt_marker]. fold yd.
  rewrite insert_insert_eq. f_equal.
  apply subseteq_union_1_L, union_subseteq_l.
Qed.

(** ** A stored day in the manifests *)

Lemma entry_below_join (dir name : string) :
  entry_below dir (joinpath dir name) = entry_below "" (joinpath "" name).
Proof.
  unfold entry_below, joinpath. rewrite <- ?append_assoc.
  by rewrite !strip_prefix_app.
Qed.

(** The names the program gives to month directories and daily files have
    no slash, and a month directory matches the month pattern. *)
Lemma names_table :
  Forall (λ m, is_month_name (Text.fmt02 m) = true ∧
               entry_below "" (joinpath "" (Text.fmt02 m)) = Some (Text.fmt02 m) ∧
               Forall (λ d, entry_below "" (joinpath "" (daily_name d m))
                            = Some (daily_name d m))
                      (seq 1 31))
         (seq 1 12).
Proof. apply (bool_decide_unpack _). by vm_compute. Qed.

Lemma month_dir_listed (yd : string) (m : nat) :
  1 ≤ m ≤ 12 →
  is_month_name (Text.fmt02 m) = true ∧
  entry_below yd (joinpath yd (Text.fmt02 m)) = Some (Text.fmt02 m).
Proof.
  intros Hm. pose proof names_table as H. rewrite Forall_forall in H.
  destruct (H m) as (Hname & Hbelow & _); [apply elem_of_seq; lia|].
  by rewrite entry_below_join.
Qed.

Lemma daily_file_listed (md : string) (d m : nat) :
  1 ≤ m ≤ 12 → 1 ≤ d ≤ 31 →
  entry_below md (joinpath md (daily_name d m)) = Some (daily_name d m).
Proof.
  intros Hm Hd. pose proof names_table as H. rewrite Forall_forall in H.
  destruct (H m) as (_ & _ & Hdays); [apply elem_of_seq; lia|].
  rewrite Forall_forall in Hdays. rewrite entry_below_join.
  apply Hdays, elem_of_seq. lia.
Qed.

(** After [save_single_news] the month directory and the day's file exist. *)
Lemma save_single_news_ensures today e s :
  let s1 := (save_single_news today e s).2 in
  month_dir_of (year today) (month today) ∈ fs_dirs s1 ∧
  (daily_path today s).1 ∈ dom (fs_daily s1).
Proof.
  intros s1. unfold s1.
  destruct (day_sequence_dec today e s) as [Hdup|Hnew].
  - rewrite (save_single_news_dup today e s Hdup). cbn [snd daily_path fs_dirs ensure_dir
                                                         fs_daily].
    split; [by apply elem_of_union_l, elem_of_singleton|].
    destruct Hdup as (x & Hx & _). unfold day_sequence in Hx. cbn [daily_path fst] in Hx.
    cbn [fst]. apply elem_of_dom.
    destruct (fs_daily s !! _) as [[| |l]|]; by (eauto || apply elem_of_nil in Hx).
  - rewrite (save_single_news_new today e s Hnew). cbn [snd].
    unfold save_daily_list. cbn. split.
    + apply elem_of_union_r, elem_of_union_l. by apply elem_of_singleton.
    + apply elem_of_dom. by rewrite lookup_insert_eq.
Qed.

(** X23.  On a date with month 1 to 12 and day 1 to 31, saving an item and
    then rebuilding the two manifests for the same date, as a run does,
    leaves a month manifest that has the two-digit day among its keys and a
    year manifest that maps the two-digit month to that month manifest:
    the day just written can be reached from the year manifest. *)
Theorem stored_day_in_manifests (dt : date) (e : entry) (s : fs) :
  1 ≤ month dt ≤ 12 → 1 ≤ day dt ≤ 31 →
  let md := month_dir_of (year dt) (month dt) in
  let yd := joinpath DATA_BASE (pretty (year dt)) in
  let s' := update_year_manifest dt (update_month_manifest dt (save_single_news dt e s).2) in
  ∃ mm ym,
    fs_month s' !! joinpath md MONTH_MANIFEST = Some mm ∧
    Text.fmt02 (day dt) ∈ (mm_days mm).*1 ∧
    fs_year s' !! joinpath yd "year_manifest.json" = Some ym ∧
    dict_get (Text.fmt02 (month dt)) (ym_months ym) = Some (joinpath md MONTH_MANIFEST).
Proof.
  intros Hm Hd md yd s'.
  destruct (save_single_news_ensures dt e s) as [Hdir Hfile].
  set (s1 := (save_single_news dt e s).2) in *. fold md in Hdir.
  unfold s'. rewrite update_year_manifest_eq, update_month_manifest_eq. cbn zeta.
  fold md yd. cbn [fs_month fs_year fs_dirs fs_daily].
  eexists _, _. split; [apply lookup_insert_eq|]. cbn [mm_days].
  split; [|split; [apply lookup_insert_eq|]]; cbn [ym_months].
  - destruct (month_days_spec md (listdir (ensure_dir md s1) md)) as (Hkeys & _).
    apply Hkeys. exists (daily_name (day dt) (month dt)). split.
    + split; [|split; [apply endswith_daily_name|by apply daily_name_not_manifest]].
      apply listdir_ensure_dir, elem_of_listdir.
      exists (joinpath md (daily_name (day dt) (month dt))).
      split; [right; left; exact Hfile|by apply daily_file_listed].
    + apply day_key_daily_name. by destruct (fmt02_day (day dt) Hd).
  - destruct (month_dir_listed yd (month dt) Hm) as [Hname Hbelow].
    match goal with
    | |- dict_get _ (year_months _ ?l) = _ =>
        destruct (year_months_spec yd l) as (Hkeys & Hget & _)
    end.
    apply Hget, Hkeys. split; [|done].
    apply listdir_ensure_dir, elem_of_listdir. exists md.
    split; [|exact Hbelow]. left. cbn [fs_dirs]. by apply elem_of_union_r.
Qed.

Lemma stored_day_in_manifests_witness :
  let md := month_dir_of (year sample_day) (month sample_day) in
  let yd := joinpath DATA_BASE (pretty (year sample_day)) in
  let s' := update_year_manifest sample_day
              (update_month_manifest sample_day
                 (save_single_news sample_day sample_entry_a empty_fs).2) in
  ∃ mm ym,
    fs_month s' !! joinpath md MONTH_MANIFEST = Some mm ∧
    Text.fmt02 (day sample_day) ∈ (mm_days mm).*1 ∧
    fs_year s' !! joinpath yd "year_manifest.json" = Some ym ∧
    dict_get (Text.fmt02 (month sample_day)) (ym_months ym)
    = Some (joinpath md MONTH_MANIFEST).
Proof.
  apply (stored_day_in_manifests sample_day sample_entry_a empty_fs); cbn; lia.
Defined.

(** ** Instances *)

Lemma update_year_manifest_months_witness :
  ∃ mf,
    fs_year (update_year_manifest sample_day
               (save_single_news sample_day sample_entry_a empty_fs).2)
      !! joinpath (joinpath DATA_BASE (pretty (year sample_day))) "year_manifest.json"
    = Some mf ∧
    dict_get (Text.fmt02 5) (ym_months mf)
    = Some (joinpath (joinpath (joinpath DATA_BASE (pretty (year sample_day)))
                               (Text.fmt02 5)) MONTH_MANIFEST).
Proof.
  destruct (update_year_manifest_months sample_day
              (save_single_news sample_day sample_entry_a empty_fs).2)
    as [(mf & Hmf & _ & Hkeys & Hget & _) _].
  exists mf. split; [exact Hmf|]. apply (Hget (Text.fmt02 5)), Hkeys.
  destruct (month_dir_listed (joinpath DATA_BASE (pretty (year sample_day))) 5)
    as [Hname Hbelow]; [lia|].
  split; [|exact Hname]. apply elem_of_listdir.
  exists (month_dir_of (year sample_day) (month sample_day)).
  split; [|exact Hbelow]. left.
  apply (save_single_news_ensures sample_day sample_entry_a empty_fs).
Defined.

